(** * dashboard_simple.py: metrics and reconciliation table of the OMOP dashboard

    A shallow embedding of [load_real_data], [calculate_metrics] and of the
    comparison table built by [render_comparison], together with the
    properties of the reconciliation and metrics engine.

    Conventions of the embedding:
    - Python [int] is [Z]; Python [float] and JSON numbers are exact
      rationals [Q] (rounding, NaN and infinities are not modelled);
    - the two count dictionaries are [gmap string Z];
    - the pipeline report is whatever [json.load] returned: a JSON value,
      whose objects keep their items in insertion order;
    - a Python exception is an explicit [Raise] outcome;
    - the [data] dictionary handed to [calculate_metrics] is a store that
      every statement of the function threads through. *)

From Stdlib Require Import QArith Qminmax Qround Lqa DecimalString DecimalZ.
From stdpp Require Import gmap strings list fin_maps.

Local Open Scope Z_scope.
Local Open Scope string_scope.
Set Warnings "-clear-no-such-hyp".

(** ** JSON values, as produced by [json.load] *)

#[warnings="-register-all"]
Inductive json : Type :=
| JNull
| JBool (b : bool)
| JNum (q : Q)
| JStr (s : string)
| JArr (l : list json)
| JObj (items : list (string * json)).

(** ** Exceptions *)

Inductive exn : Type := TypeError | AttributeError | KeyError.

Inductive outcome (A : Type) : Type :=
| Return (a : A)
| Raise (e : exn).
Arguments Return {A} a.
Arguments Raise {A} e.

Definition obind {A B} (o : outcome A) (k : A -> outcome B) : outcome B :=
  match o with
  | Return a => k a
  | Raise e => Raise e
  end.

(** ** The Python operations the dashboard applies to report values *)

Module Py.

(** [bool(v)] *)
Definition truthy (v : json) : bool :=
  match v with
  | JNull => false
  | JBool b => b
  | JNum q => negb (Qeq_bool q 0)
  | JStr s => negb (String.eqb s "")
  | JArr l => match l with [] => false | _ => true end
  | JObj items => match items with [] => false | _ => true end
  end.

(** first item stored under [k] in a dictionary's items *)
Fixpoint lookup (k : string) (items : list (string * json)) : option json :=
  match items with
  | [] => None
  | (k', v) :: rest => if String.eqb k k' then Some v else lookup k rest
  end.

(** [p in s] for two strings *)
Fixpoint substring_of (p s : string) : bool :=
  String.prefix p s ||
  match s with
  | EmptyString => false
  | String _ s' => substring_of p s'
  end.

Definition is_str (k : string) (v : json) : bool :=
  match v with
  | JStr s => String.eqb s k
  | _ => false
  end.

(** [k in v] for a string key [k] *)
Definition contains (k : string) (v : json) : outcome bool :=
  match v with
  | JObj items => Return (bool_decide (is_Some (lookup k items)))
  | JArr l => Return (existsb (is_str k) l)
  | JStr s => Return (substring_of k s)
  | JNull | JBool _ | JNum _ => Raise TypeError
  end.

(** [v[k]] for a string key [k] *)
Definition getitem (v : json) (k : string) : outcome json :=
  match v with
  | JObj items =>
      match lookup k items with
      | Some x => Return x
      | None => Raise KeyError
      end
  | _ => Raise TypeError
  end.

(** [v.get(k, dflt)] *)
Definition get (v : json) (k : string) (dflt : json) : outcome json :=
  match v with
  | JObj items => Return (default dflt (lookup k items))
  | _ => Raise AttributeError
  end.

(** [v.values()] *)
Definition values (v : json) : outcome (list json) :=
  match v with
  | JObj items => Return (map snd items)
  | _ => Raise AttributeError
  end.

(** [v.items()] *)
Definition items (v : json) : outcome (list (string * json)) :=
  match v with
  | JObj its => Return its
  | _ => Raise AttributeError
  end.

(** [isinstance(v, dict)] *)
Definition is_dict (v : json) : bool :=
  match v with
  | JObj _ => true
  | _ => false
  end.

(** [acc + v] with a number on the left; [True] and [False] count as 1
    and 0, every other non-number raises *)
Definition add (acc : Q) (v : json) : outcome Q :=
  match v with
  | JNum q => Return (acc + q)%Q
  | JBool b => Return (acc + (if b then 1 else 0))%Q
  | _ => Raise TypeError
  end.

(** [sum(vs)]: starts from the integer 0 and adds item after item *)
Fixpoint sum_from (acc : Q) (vs : list json) : outcome Q :=
  match vs with
  | [] => Return acc
  | v :: rest => obind (add acc v) (fun acc' => sum_from acc' rest)
  end.

Definition sum (vs : list json) : outcome Q := sum_from 0%Q vs.

(** [min(x, y)] of two numbers: the first one unless the second is
    strictly smaller *)
Definition min (x y : Q) : Q := if Qle_bool x y then x else y.

(** [x > y] *)
Definition gt (x y : Q) : bool := negb (Qle_bool x y).

(** [str(n)] of an integer *)
Definition str (n : Z) : string := NilZero.string_of_int (Z.to_int n).

End Py.

(** ** The store: the [data] dictionary *)

Record Data : Type := mkData {
  synthea : gmap string Z;
  omop : gmap string Z;
  pipeline_report : json
}.

(** A statement of the program takes the store and gives back an outcome
    and the store it leaves. *)
Definition M (A : Type) : Type := Data -> outcome A * Data.

Definition ret {A} (a : A) : M A := fun d => (Return a, d).

Definition bind {A B} (m : M A) (k : A -> M B) : M B :=
  fun d =>
    match m d with
    | (Return a, d') => k a d'
    | (Raise e, d') => (Raise e, d')
    end.

(** reading the store *)
Definition gets {A} (f : Data -> A) : M A := fun d => (Return (f d), d).

(** replacing the store: the one primitive that writes *)
Definition put (d' : Data) : M unit := fun _ => (Return tt, d').

(** a Python operation that may raise *)
Definition lift {A} (o : outcome A) : M A := fun d => (o, d).

Notation "x <- m ;; k" := (bind m (fun x => k))
  (at level 100, m at next level, right associativity).

(** [d.get(k, 0)] on a dictionary of counts *)
Definition dict_get (counts : gmap string Z) (k : string) (dflt : Z) : Z :=
  default dflt (counts !! k).

(** [report and key in report] *)
Definition report_has (key : string) : M bool :=
  report <- gets pipeline_report ;;
  if Py.truthy report then lift (Py.contains key report) else ret false.

(** ** [calculate_metrics] *)

Record metrics : Type := mkMetrics {
  total_patients : Z;
  total_encounters : Z;
  total_conditions : Z;
  total_medications : Z;
  total_procedures : Z;
  total_observations : Z;
  omop_persons : Z;
  omop_visits : Z;
  omop_conditions : Z;
  omop_drugs : Z;
  omop_procedures : Z;
  omop_measurements : Z;
  omop_observations : Z;
  success_rate : json;
  processing_time : Q;
  db_connected : bool;
  concept_rate : Q
}.

(** Tasa de exito del pipeline (lines 114-122) *)
Definition success_rate_stmt (total_patients omop_persons : Z) : M json :=
  has_validation <- report_has "validation_results" ;;
  if has_validation then
    report <- gets pipeline_report ;;
    validation_results <- lift (Py.getitem report "validation_results") ;;
    summary <- lift (Py.get validation_results "summary" (JObj [])) ;;
    lift (Py.get summary "overall_success_rate" (JNum 0.95))
  else if total_patients >? 0 then
    ret (JNum (Py.min (inject_Z omop_persons / inject_Z total_patients) 1))
  else
    ret (JNum 0.95).

(** the generator [phase.get('duration_seconds', 0) for phase in ...]
    consumed by [sum]: each phase is read, then added, before the next *)
Fixpoint sum_durations (acc : Q) (phases : list json) : outcome Q :=
  match phases with
  | [] => Return acc
  | phase :: rest =>
      obind (Py.get phase "duration_seconds" (JNum 0)) (fun v =>
      obind (Py.add acc v) (fun acc' =>
      sum_durations acc' rest))
  end.

(** Tiempo de procesamiento (lines 124-131) *)
Definition processing_time_stmt : M Q :=
  has_phases <- report_has "phase_performance" ;;
  if has_phases then
    report <- gets pipeline_report ;;
    phase_performance <- lift (Py.getitem report "phase_performance") ;;
    phases <- lift (Py.values phase_performance) ;;
    total_time <- lift (sum_durations 0 phases) ;;
    ret (if Py.gt total_time 0 then total_time else 180%Q)
  else
    ret 180%Q.

(** Estado de BD (lines 133-134): [len(omop) > 0] *)
Definition db_connected_stmt : M bool :=
  n <- gets (fun d => size (omop d)) ;;
  ret (bool_decide (0 < n)%nat).

(** the loop over [concept_coverage.items()] appending to [rates] *)
Fixpoint collect_rates (entries : list (string * json)) (rates : list json)
  : outcome (list json) :=
  match entries with
  | [] => Return rates
  | (field, stats) :: rest =>
      obind (if Py.is_dict stats then Py.contains "mapped_rate" stats
             else Return false) (fun exposes =>
      if exposes then
        obind (Py.getitem stats "mapped_rate") (fun rate =>
        collect_rates rest (rates ++ [rate])%list)
      else collect_rates rest rates)
  end.

(** [len(rates)] *)
Definition len (rates : list json) : Z := Z.of_nat (length rates).

(** Tasa de mapeo de conceptos (lines 136-147) *)
Definition concept_rate_stmt : M Q :=
  has_validation <- report_has "validation_results" ;;
  if has_validation then
    report <- gets pipeline_report ;;
    validation_results <- lift (Py.getitem report "validation_results") ;;
    concept_coverage <-
      lift (Py.get validation_results "concept_coverage" (JObj [])) ;;
    if Py.truthy concept_coverage then
      entries <- lift (Py.items concept_coverage) ;;
      rates <- lift (collect_rates entries []) ;;
      if Py.truthy (JArr rates) then
        total <- lift (Py.sum rates) ;;
        ret (total / inject_Z (len rates))%Q
      else ret 0.92%Q
    else ret 0.92%Q
  else ret 0.92%Q.

Definition synthea_get (k : string) : M Z :=
  gets (fun d => dict_get (synthea d) k 0).

Definition omop_get (k : string) : M Z :=
  gets (fun d => dict_get (omop d) k 0).

Definition calculate_metrics : M metrics :=
  total_patients <- synthea_get "patients" ;;
  total_encounters <- synthea_get "encounters" ;;
  total_conditions <- synthea_get "conditions" ;;
  total_medications <- synthea_get "medications" ;;
  total_procedures <- synthea_get "procedures" ;;
  total_observations <- synthea_get "observations" ;;
  omop_persons <- omop_get "person" ;;
  omop_visits <- omop_get "visit_occurrence" ;;
  omop_conditions <- omop_get "condition_occurrence" ;;
  omop_drugs <- omop_get "drug_exposure" ;;
  omop_procedures <- omop_get "procedure_occurrence" ;;
  omop_measurements <- omop_get "measurement" ;;
  omop_observations <- omop_get "observation" ;;
  success_rate <- success_rate_stmt total_patients omop_persons ;;
  processing_time <- processing_time_stmt ;;
  db_connected <- db_connected_stmt ;;
  concept_rate <- concept_rate_stmt ;;
  ret {| total_patients := total_patients;
         total_encounters := total_encounters;
         total_conditions := total_conditions;
         total_medications := total_medications;
         total_procedures := total_procedures;
         total_observations := total_observations;
         omop_persons := omop_persons;
         omop_visits := omop_visits;
         omop_conditions := omop_conditions;
         omop_drugs := omop_drugs;
         omop_procedures := omop_procedures;
         omop_measurements := omop_measurements;
         omop_observations := omop_observations;
         success_rate := success_rate;
         processing_time := processing_time;
         db_connected := db_connected;
         concept_rate := concept_rate |}.

(** what the caller receives, and the store the call leaves *)
Definition result_of (d : Data) : outcome metrics := fst (calculate_metrics d).
Definition store_after (d : Data) : Data := snd (calculate_metrics d).

(** a field of the returned dictionary, when the call returned *)
Definition field {A} (f : metrics -> A) (o : outcome metrics) : option A :=
  match o with
  | Return m => Some (f m)
  | Raise _ => None
  end.

(** ** [load_real_data]

    The loader is a function of what is on disk when it runs; the
    [st.cache_data] decorator only keeps that first answer. *)

(** What the loader finds at a CSV path: nothing, a file [pd.read_csv]
    fails on, or a table with so many rows. *)
Inductive csv_file : Type :=
| NoFile
| Unreadable
| Rows (n : nat).

(** The part of the file system the loader looks at.  [pipeline_files] is
    the result of the glob for [pipeline_report_*.json], each entry being
    the parsed document, or [None] when opening or parsing it fails. *)
Record filesystem : Type := mkFs {
  csv : string -> csv_file;
  data_dir_exists : bool;
  pipeline_files : list (option json)
}.

Definition synthea_files : list string :=
  [ "patients.csv"; "encounters.csv"; "conditions.csv";
    "medications.csv"; "procedures.csv"; "observations.csv";
    "allergies.csv"; "organizations.csv"; "providers.csv" ].

Definition omop_files : list string :=
  [ "person.csv"; "visit_occurrence.csv"; "condition_occurrence.csv";
    "drug_exposure.csv"; "procedure_occurrence.csv"; "measurement.csv";
    "observation.csv"; "care_site.csv"; "location.csv"; "provider.csv";
    "observation_period.csv" ].

(** [file.replace('.csv', '')]: every occurrence is dropped, left to
    right; [skip] counts the characters of a match still to drop *)
Fixpoint replace_csv (skip : nat) (file : string) : string :=
  match file with
  | EmptyString => EmptyString
  | String c rest =>
      match skip with
      | S k => replace_csv k rest
      | O =>
          if String.prefix ".csv" file then replace_csv 3 rest
          else String c (replace_csv 0 rest)
      end
  end.

Definition table_name (file : string) : string := replace_csv 0 file.

(** the body of the loops over the expected files of a directory *)
Definition load_file (fs : filesystem) (dir : string)
  (loaded : gmap string Z) (file : string) : gmap string Z :=
  match csv fs (String.append dir (String.append "/" file)) with
  | NoFile => loaded
  | Rows n => <[ table_name file := Z.of_nat n ]> loaded
  | Unreadable => <[ table_name file := 0 ]> loaded
  end.

Definition load_counts (fs : filesystem) (dir : string) (files : list string)
  : gmap string Z :=
  fold_left (load_file fs dir) files ∅.

Definition load_pipeline_report (fs : filesystem) : json :=
  if data_dir_exists fs then
    match last (pipeline_files fs) with
    | Some (Some report) => report
    | Some None => JObj []
    | None => JObj []
    end
  else JObj [].

Definition load_real_data (fs : filesystem) : Data :=
  {| synthea := load_counts fs "data/synthea" synthea_files;
     omop := load_counts fs "data/omop" omop_files;
     pipeline_report := load_pipeline_report fs |}.

(** [main]: load, then compute *)
Definition main_metrics (fs : filesystem) : outcome metrics :=
  result_of (load_real_data fs).

(** ** The comparison table of [render_comparison] *)

Record row : Type := mkRow {
  Tabla_Synthea : string;
  Registros_Synthea : string;
  Tabla_OMOP : string;
  Registros_OMOP : string;
  Integridad : string
}.

Section Comparison.
Variable data : Data.

Let s (k : string) : Z := dict_get (synthea data) k 0.
Let o (k : string) : Z := dict_get (omop data) k 0.

(** a row comparing one source table with one target table *)
Definition row_1_1 (ts ks tho ko : string) : row :=
  {| Tabla_Synthea := ts;
     Registros_Synthea := Py.str (s ks);
     Tabla_OMOP := tho;
     Registros_OMOP := Py.str (o ko);
     Integridad := if (s ks =? o ko)%Z then "✅ 100%" else "⚠️ Revisar" |}.

(** a row comparing one source table with the sum of two target tables *)
Definition row_split (ts ks tho ko1 ko2 : string) : row :=
  {| Tabla_Synthea := ts;
     Registros_Synthea := Py.str (s ks);
     Tabla_OMOP := tho;
     Registros_OMOP := Py.str (o ko1 + o ko2);
     Integridad := if (o ko1 + o ko2 >? 0)%Z then "✅ Dividido"
                   else "⚠️ Revisar" |}.

Definition comparison_data : list row :=
  [ row_1_1 "👥 patients" "patients" "👥 person" "person";
    row_1_1 "🏥 encounters" "encounters"
            "🏥 visit_occurrence" "visit_occurrence";
    row_1_1 "🔬 conditions" "conditions"
            "🔬 condition_occurrence" "condition_occurrence";
    row_1_1 "💊 medications" "medications"
            "💊 drug_exposure" "drug_exposure";
    row_1_1 "⚕️ procedures" "procedures"
            "⚕️ procedure_occurrence" "procedure_occurrence";
    row_split "📊 observations" "observations"
              "📊 measurement + observation" "measurement" "observation";
    row_split "🏥 organizations" "organizations"
              "🏥 care_site + location" "care_site" "location";
    row_1_1 "👨‍⚕️ providers" "providers" "👨‍⚕️ provider" "provider";
    row_1_1 "👥 patients (períodos)" "patients"
            "📅 observation_period" "observation_period";
    {| Tabla_Synthea := "🤧 allergies";
       Registros_Synthea := Py.str (s "allergies");
       Tabla_OMOP := "📝 observation (alergias)";
       Registros_OMOP := "Incluido en observation";
       Integridad := if (s "allergies" >? 0)%Z then "✅ Transformado"
                     else "⚠️ Sin datos" |} ].
End Comparison.

(** The classes of the reconciliation rows, and the class each label of
    the [Integridad] column stands for. *)
Inductive classification : Type := Exact | Transformed | Discrepant | NoData.

Definition classify (label : string) : option classification :=
  if String.eqb label "✅ 100%" then Some Exact
  else if String.eqb label "✅ Dividido" then Some Transformed
  else if String.eqb label "✅ Transformado" then Some Transformed
  else if String.eqb label "⚠️ Revisar" then Some Discrepant
  else if String.eqb label "⚠️ Sin datos" then Some NoData
  else None.

Definition scenario_A : Data :=
  mkData {[ "patients" := 30 ]} {[ "person" := 30 ]} (JObj []).
Definition scenario_B : Data :=
  mkData {[ "patients" := 30 ]} {[ "person" := 28 ]} (JObj []).
Definition scenario_C : Data :=
  mkData {[ "observations" := 50 ]}
         (<[ "measurement" := 20 ]> {[ "observation" := 30 ]}) (JObj []).
Definition scenario_D : Data :=
  mkData ∅ ∅ (JObj [("validation_results", JObj [("concept_coverage", JObj [
     ("conditions", JObj [("mapped_rate", JNum 0.467)]);
     ("drugs", JObj [("mapped_rate", JNum 0.88)])])])]).

(** ** Reading the run report of the data model off the document *)

(** the value found by following [path] through nested objects *)
Fixpoint at_path (path : list string) (v : json) : option json :=
  match path with
  | [] => Some v
  | k :: rest =>
      match v with
      | JObj items =>
          match Py.lookup k items with
          | Some x => at_path rest x
          | None => None
          end
      | _ => None
      end
  end.

(** [validation_summary.overall_success_rate], when the report carries it *)
Definition reported_success_rate (report : json) : option json :=
  at_path ["validation_results"; "summary"; "overall_success_rate"] report.

(** the numeric value an entry exposes under [k], if any *)
Definition exposed (k : string) (entry : string * json) : option Q :=
  match at_path [k] entry.2 with
  | Some (JNum q) => Some q
  | _ => None
  end.

(** the [mapped_rate] values present in [concept_coverage], in order *)
Definition mapped_rates (report : json) : list Q :=
  match at_path ["validation_results"; "concept_coverage"] report with
  | Some (JObj entries) => omap (exposed "mapped_rate") entries
  | _ => []
  end.

(** the declared durations of [phase_durations], when the section exists *)
Definition phase_durations (report : json) : option (list Q) :=
  match at_path ["phase_performance"] report with
  | Some (JObj phases) => Some (omap (exposed "duration_seconds") phases)
  | _ => None
  end.

Definition Qsum (qs : list Q) : Q := foldr Qplus 0%Q qs.

Definition mean (qs : list Q) : Q := (Qsum qs / inject_Z (Z.of_nat (length qs)))%Q.

(** a fraction in the closed interval from 0 to 1 *)
Definition in_unit_interval (v : json) : bool :=
  match v with
  | JNum q => Qle_bool 0 q && Qle_bool q 1
  | _ => false
  end.

(** *** The shape of a report (sections 3 and 6 of the specification)

    Every section is optional; a section that is present has the shape the
    data model gives it.  A report that is absent is the empty dictionary
    the loader starts from. *)

Definition optional (k : string) (ok : json -> bool)
  (items : list (string * json)) : bool :=
  match Py.lookup k items with
  | None => true
  | Some v => ok v
  end.

Definition is_number (v : json) : bool :=
  match v with
  | JNum _ => true
  | _ => false
  end.

(** an entry of [concept_coverage]: an object whose [mapped_rate], when
    present, is a number; anything that is not an object is tolerated *)
Definition coverage_entry_ok (stats : json) : bool :=
  match stats with
  | JObj fields => optional "mapped_rate" is_number fields
  | _ => true
  end.

Definition coverage_ok (v : json) : bool :=
  match v with
  | JObj entries => forallb (fun e => coverage_entry_ok e.2) entries
  | _ => negb (Py.truthy v)
  end.

Definition validation_ok (v : json) : bool :=
  match v with
  | JObj sections =>
      optional "summary" Py.is_dict sections &&
      optional "concept_coverage" coverage_ok sections
  | _ => false
  end.

Definition phase_ok (phase : json) : bool :=
  match phase with
  | JObj fields => optional "duration_seconds" is_number fields
  | _ => false
  end.

Definition phases_ok (v : json) : bool :=
  match v with
  | JObj phases => forallb (fun e => phase_ok e.2) phases
  | _ => false
  end.

Definition report_ok (report : json) : bool :=
  match report with
  | JObj sections =>
      optional "validation_results" validation_ok sections &&
      optional "phase_performance" phases_ok sections
  | _ => negb (Py.truthy report)
  end.

(** *** The success rate of the specification *)

Definition patients (d : Data) : Z := dict_get (synthea d) "patients" 0.
Definition persons (d : Data) : Z := dict_get (omop d) "person" 0.

(** [min(primary_target / primary_source, 1.0)] *)
Definition derived_ratio (d : Data) : Q :=
  Py.min (inject_Z (persons d) / inject_Z (patients d)) 1.

(** measured, else derived, else assumed *)
Definition three_tier (d : Data) : json :=
  match reported_success_rate (pipeline_report d) with
  | Some v => v
  | None => if patients d >? 0 then JNum (derived_ratio d) else JNum 0.95
  end.

(** *** The correspondence table of the comparison, row by row *)

Inductive correspondence : Type :=
| OneToOne (src tgt : string)
| OneToMany (src : string) (tgts : list string)
| Included (src : string).

Definition correspondences : list correspondence :=
  [ OneToOne "patients" "person";
    OneToOne "encounters" "visit_occurrence";
    OneToOne "conditions" "condition_occurrence";
    OneToOne "medications" "drug_exposure";
    OneToOne "procedures" "procedure_occurrence";
    OneToMany "observations" ["measurement"; "observation"];
    OneToMany "organizations" ["care_site"; "location"];
    OneToOne "providers" "provider";
    OneToOne "patients" "observation_period";
    Included "allergies" ].

Definition source_of (c : correspondence) : string :=
  match c with
  | OneToOne src _ | OneToMany src _ | Included src => src
  end.

Definition targets_of (c : correspondence) : list string :=
  match c with
  | OneToOne _ tgt => [tgt]
  | OneToMany _ tgts => tgts
  | Included _ => []
  end.

Definition source_count (d : Data) (c : correspondence) : Z :=
  dict_get (synthea d) (source_of c) 0.

(** the sum of the counts of the declared targets, 0 for an absent one *)
Definition target_count (d : Data) (c : correspondence) : Z :=
  foldr Z.add 0 (map (fun k => dict_get (omop d) k 0) (targets_of c)).

Definition is_one_to_one (c : correspondence) : bool :=
  match c with
  | OneToOne _ _ => true
  | _ => false
  end.

Definition is_one_to_many (c : correspondence) : bool :=
  match c with
  | OneToMany _ _ => true
  | _ => false
  end.

Definition is_included (c : correspondence) : bool :=
  match c with
  | Included _ => true
  | _ => false
  end.

(** the class of a row of the table *)
Definition class_of (r : row) : option classification :=
  classify (Integridad r).

(** *** Inputs used as examples *)

Definition empty_snapshot : Data := mkData ∅ ∅ (JObj []).

(** a report with validation results but no summary *)
Definition partial_report : Data :=
  mkData {[ "patients" := 30 ]} {[ "person" := 15 ]}
    (JObj [("validation_results", JObj [("concept_coverage", JObj [])])]).

(** a report whose recorded rate is above 1 *)
Definition over_reported : Data :=
  mkData {[ "patients" := 30 ]} {[ "person" := 30 ]}
    (JObj [("validation_results",
            JObj [("summary", JObj [("overall_success_rate", JNum 1.5)])])]).

(** target files that exist and hold no rows *)
Definition empty_target_tables : Data :=
  mkData {[ "patients" := 30 ]} {[ "person" := 0 ]} (JObj []).

(** a coverage entry whose [mapped_rate] is a string *)
Definition malformed_rate : Data :=
  mkData {[ "patients" := 30 ]} {[ "person" := 30 ]}
    (JObj [("validation_results",
            JObj [("concept_coverage",
                   JObj [("conditions", JObj [("mapped_rate", JStr "n/a")]);
                         ("drugs", JObj [("mapped_rate", JNum 0.88)])])])]).

(** a coverage entry that is not an object at all *)
Definition malformed_entry : Data :=
  mkData {[ "patients" := 30 ]} {[ "person" := 30 ]}
    (JObj [("validation_results",
            JObj [("concept_coverage",
                   JObj [("conditions", JStr "n/a");
                         ("drugs", JObj [("mapped_rate", JNum 0.88)])])])]).

(** a report with two timed phases and one without a duration *)
Definition timed_report : Data :=
  mkData {[ "patients" := 30 ]} {[ "person" := 30 ]}
    (JObj [("phase_performance",
            JObj [("extract", JObj [("duration_seconds", JNum 12.5)]);
                  ("transform", JObj [("status", JStr "ok")]);
                  ("load", JObj [("duration_seconds", JNum 30)])])]).

(** no file anywhere *)
Definition no_files : filesystem := mkFs (fun _ => NoFile) false [].

(** what [calculate_metrics] returns when nothing was loaded *)
Definition default_metrics : metrics :=
  {| total_patients := 0; total_encounters := 0; total_conditions := 0;
     total_medications := 0; total_procedures := 0; total_observations := 0;
     omop_persons := 0; omop_visits := 0; omop_conditions := 0;
     omop_drugs := 0; omop_procedures := 0; omop_measurements := 0;
     omop_observations := 0;
     success_rate := JNum 0.95;
     processing_time := 180;
     db_connected := false;
     concept_rate := 0.92 |}.

(** ** More Python arithmetic *)

(** [x // y] on numbers *)
Definition py_floordiv (x y : Q) : Q := inject_Z (Qfloor (x / y)).

(** [x % y] on numbers *)
Definition py_mod (x y : Q) : Q := (x - y * py_floordiv x y)%Q.

(** [int(x)]: truncation toward zero *)
Definition py_int (x : Q) : Z := Z.quot (Qnum x) (Zpos (Qden x)).

(** [v >= q] for a report value on the left and a number on the right *)
Definition py_ge (v : json) (q : Q) : outcome bool :=
  match v with
  | JNum x => Return (Qle_bool q x)
  | JBool b => Return (Qle_bool q (if b then 1 else 0))
  | _ => Raise TypeError
  end.

(** [sum(l)] of a list of integers *)
Definition sum_ints (l : list Z) : Z := fold_left Z.add l 0.

(** ** The sidebar of [main] *)

Inductive st_call : Type :=
| st_success (text : string)
| st_warning (text : string)
| st_error (text : string).

(** Estado del Sistema (lines 212-219) *)
Definition estado_del_sistema (data : Data) (m : metrics) : list st_call :=
  if (total_patients m >? 0) && (omop_persons m >? 0) then
    [ st_success "✅ Datos reales cargados";
      st_success (String.append "✅ "
        (String.append (Py.str (Z.of_nat (size (synthea data))))
                       " archivos Synthea"));
      st_success (String.append "✅ "
        (String.append (Py.str (Z.of_nat (size (omop data))))
                       " tablas OMOP")) ]
  else if total_patients m >? 0 then
    [ st_warning "⚠️ Solo datos Synthea" ]
  else
    [ st_error "❌ No se encontraron datos" ].

(** the test [metrics['success_rate'] >= 0.9] of lines 234, 273 and 398 *)
Definition success_test (m : metrics) : outcome bool :=
  py_ge (success_rate m) 0.9.

(** the text of lines 239 and 290:
    [f"{int(t//60)}m {int(t%60)}s"] *)
Definition time_formatted (processing_time : Q) : string :=
  String.append (Py.str (py_int (py_floordiv processing_time 60)))
    (String.append "m "
      (String.append (Py.str (py_int (py_mod processing_time 60))) "s")).

(** ** The totals of [render_executive_summary] (lines 338-353) *)




(** ** The statistics under the chart of [render_comparison]
       (lines 548-610) *)

Definition synthea_counts (data : Data) : list Z :=
  [ dict_get (synthea data) "patients" 0;
    dict_get (synthea data) "encounters" 0;
    dict_get (synthea data) "conditions" 0;
    dict_get (synthea data) "medications" 0;
    dict_get (synthea data) "procedures" 0 ].

Definition omop_counts (data : Data) : list Z :=
  [ dict_get (omop data) "person" 0;
    dict_get (omop data) "visit_occurrence" 0;
    dict_get (omop data) "condition_occurrence" 0;
    dict_get (omop data) "drug_exposure" 0;
    dict_get (omop data) "procedure_occurrence" 0 ].

(** what the third metric shows: the efficiency, printed with one
    decimal and a percent sign (the printing is not modelled), or "N/A" *)
Inductive efficiency_metric : Type :=
| Efficiency (efficiency : Q)
| NotAvailable.

Definition eficiencia (data : Data) : efficiency_metric :=
  let total_synthea := sum_ints (synthea_counts data) in
  let total_omop := sum_ints (omop_counts data) in
  if total_synthea >? 0 then
    Efficiency (inject_Z total_omop / inject_Z total_synthea * 100)
  else NotAvailable.

(** *** What the loader finds on disk *)

(** [dir / file] *)
Definition path_in (dir file : string) : string :=
  String.append dir (String.append "/" file).

(** the count a file contributes: none when it does not exist, 0 when it
    cannot be read, its number of rows otherwise *)
Definition loaded_count (c : csv_file) : option Z :=
  match c with
  | NoFile => None
  | Unreadable => Some 0
  | Rows n => Some (Z.of_nat n)
  end.

Definition on_disk (fs : filesystem) (dir file : string) : bool :=
  match csv fs (path_in dir file) with
  | NoFile => false
  | _ => true
  end.

(** the expected files of a directory that exist *)
Definition found (fs : filesystem) (dir : string) (files : list string)
  : list string :=
  filter (fun file => on_disk fs dir file = true) files.

(** the rows a file contributes to a count read with default 0 *)
Definition rows_on_disk (fs : filesystem) (dir file : string) : Z :=
  default 0 (loaded_count (csv fs (path_in dir file))).

(** a file system where every unreadable file is an empty table instead *)
Definition as_empty (c : csv_file) : csv_file :=
  match c with
  | Unreadable => Rows 0
  | _ => c
  end.

Definition unreadable_as_empty (fs : filesystem) : filesystem :=
  {| csv := fun path => as_empty (csv fs path);
     data_dir_exists := data_dir_exists fs;
     pipeline_files := pipeline_files fs |}.

(** a disk with 30 patients, a person file that cannot be read, and
    nothing else *)
Definition small_disk : filesystem :=
  mkFs (fun path =>
          if String.eqb path "data/synthea/patients.csv" then Rows 30
          else if String.eqb path "data/omop/person.csv" then Unreadable
          else NoFile) true [].

(** a report whose recorded rate is a string *)
Definition string_rate : Data :=
  mkData {[ "patients" := 30 ]} {[ "person" := 30 ]}
    (JObj [("validation_results",
            JObj [("summary",
                   JObj [("overall_success_rate", JStr "95%")])])]).

(** a number, as far as [>=] is concerned *)
Definition comparable (v : json) : bool :=
  match v with
  | JNum _ | JBool _ => true
  | _ => false
  end.

(** a report whose validation results are a list *)
Definition list_validation : Data :=
  mkData {[ "patients" := 30 ]} {[ "person" := 30 ]}
    (JObj [("validation_results", JArr [JStr "passed"])]).

(** ** The four tables of [render_mapping_analysis] (lines 738-878) *)

(** what a page does: it shows something, or an exception ends it *)
Inductive render_exn : Type := ZeroDivisionError.

Inductive shown (A : Type) : Type :=
| Shown (a : A)
| Fails (e : render_exn).
Arguments Shown {A} a.
Arguments Fails {A} e.

Fixpoint zeros (k : nat) : string :=
  match k with
  | O => EmptyString
  | S k' => String.append "0" (zeros k')
  end.

(** [f"{n:0{width}d}"]: the sign, then the digits padded with zeros *)
Definition fmt_0d (width : nat) (n : Z) : string :=
  let digits := Py.str (Z.abs n) in
  let sign := if (n <? 0)%Z then "-" else EmptyString in
  String.append sign
    (String.append
       (zeros (width - String.length sign - String.length digits))
       digits).

(** [l[:n]] *)
Definition slice_to {A} (l : list A) (n : Z) : list A :=
  if (n <? 0)%Z then take (length l - Z.to_nat (- n)) l
  else take (Z.to_nat n) l.

(** [enumerate(l, 1)] *)
Definition enumerate_1 {A} (l : list A) : list (Z * A) :=
  imap (fun i x => (Z.of_nat i + 1, x)) l.

Definition condition_codes : list (string * string * string) :=
  [ ("K29.9", "Gastritis no especificada", "SNOMED: 4247120");
    ("K21.0", "Enfermedad por reflujo gastroesofágico", "SNOMED: 235595009");
    ("K59.0", "Estreñimiento", "SNOMED: 14760008");
    ("K92.2", "Hemorragia gastrointestinal", "SNOMED: 74474003");
    ("K25.9", "Úlcera gástrica no especificada", "SNOMED: 13200003");
    ("K30", "Dispepsia funcional", "SNOMED: 162031009");
    ("K50.9", "Enfermedad de Crohn", "SNOMED: 34000006");
    ("K51.9", "Colitis ulcerosa", "SNOMED: 64766004");
    ("K80.2", "Cálculos biliares", "SNOMED: 235919008");
    ("K57.9", "Diverticulosis", "SNOMED: 307496006") ].

Definition drug_codes : list (string * string * string) :=
  [ ("Omeprazol 20mg", "A02BC01", "RxNorm: 7646");
    ("Lansoprazol 30mg", "A02BC03", "RxNorm: 17128");
    ("Mesalazina 500mg", "A07EC02", "RxNorm: 6759");
    ("Pantoprazol 40mg", "A02BC02", "RxNorm: 40790");
    ("Sucralfato 1g", "A02BX02", "RxNorm: 10156") ].

Definition procedure_codes : list (string * string * string) :=
  [ ("43239", "Endoscopia digestiva alta", "SNOMED: 423827005");
    ("45378", "Colonoscopia diagnóstica", "SNOMED: 73761001");
    ("43235", "Esofagogastroduodenoscopia", "SNOMED: 423827005") ].

Definition measurement_codes : list (string * string * string) :=
  [ ("Hemoglobina", "12.5 g/dL", "LOINC: 718-7");
    ("Ferritina sérica", "45 ng/mL", "LOINC: 2276-4");
    ("Vitamina B12", "180 pg/mL", "LOINC: 2132-9");
    ("Creatinina", "1.1 mg/dL", "LOINC: 2160-0") ].

(** [f"PAT_{(i*k)%30+1:03d}"] *)
Definition paciente (k i : Z) : string :=
  String.append "PAT_" (fmt_0d 3 ((i * k) mod 30 + 1)).

(** [f"2024-0{(i%3)+1}-{(i%28)+1:02d}"] *)
Definition fecha (i : Z) : string :=
  String.append "2024-0"
    (String.append (Py.str (i mod 3 + 1))
       (String.append "-" (fmt_0d 2 (i mod 28 + 1)))).

(** a row of a table: the dictionary appended in the loop, item by item *)
Definition tab_row : Type := list (string * string).

Definition condition_row (i : Z) (c : string * string * string) : tab_row :=
  let '(code, desc, snomed) := c in
  [ ("ID", String.append "COND_" (fmt_0d 3 i));
    ("Código ICD-10", code);
    ("Descripción", desc);
    ("Paciente", paciente 3 i);
    ("Fecha", fecha i);
    ("Estado", "🔴 Sin SNOMED");
    ("Sugerencia", snomed);
    ("Prioridad", if (i <=? 5)%Z then "🔥 ALTA" else "🟡 MEDIA") ].

Definition drug_row (i : Z) (c : string * string * string) : tab_row :=
  let '(med, atc, rxnorm) := c in
  [ ("ID", String.append "MED_" (fmt_0d 3 i));
    ("Medicamento", med);
    ("Código ATC", atc);
    ("Paciente", paciente 2 i);
    ("Fecha", fecha i);
    ("Estado", if (i <=? 4)%Z then "🟡 Sin RxNorm" else "🔴 Sin ATC ni RxNorm");
    ("Sugerencia", rxnorm);
    ("Prioridad", if (i =? 5)%Z then "🔥 ALTA" else "🟡 MEDIA") ].

Definition procedure_row (i : Z) (c : string * string * string) : tab_row :=
  let '(cpt, desc, snomed) := c in
  [ ("ID", String.append "PROC_" (fmt_0d 3 i));
    ("Código CPT", cpt);
    ("Descripción", desc);
    ("Paciente", paciente 5 i);
    ("Fecha", fecha i);
    ("Estado", "🟡 Sin SNOMED");
    ("Sugerencia", snomed);
    ("Prioridad", "🟡 MEDIA") ].

Definition measurement_row (i : Z) (c : string * string * string) : tab_row :=
  let '(param, valor, loinc) := c in
  [ ("ID", String.append "MEAS_" (fmt_0d 3 i));
    ("Parámetro", param);
    ("Valor", valor);
    ("Paciente", paciente 4 i);
    ("Fecha", fecha i);
    ("Estado", "🟡 Sin LOINC");
    ("Sugerencia", loinc);
    ("Prioridad", "🟡 MEDIA") ].

(** what differs between the four tabs: the count read, its default when
    the key is missing, the share taken as mapped, the codes listed and
    the row built for each *)
Record tab : Type := mkTab {
  tab_key : string;
  tab_default : Z;
  tab_rate : Q;
  tab_codes : list (string * string * string);
  tab_build : Z -> string * string * string -> tab_row
}.

Definition mapping_tabs : list tab :=
  [ mkTab "conditions" 54 0.467 condition_codes condition_row;
    mkTab "medications" 42 0.88 drug_codes drug_row;
    mkTab "procedures" 38 0.92 procedure_codes procedure_row;
    mkTab "observations" 28 0.85 measurement_codes measurement_row ].

(** [total = data['synthea'].get(key, default)] *)
Definition tab_total (data : Data) (t : tab) : Z :=
  dict_get (synthea data) (tab_key t) (tab_default t).

(** [mapped = int(total * rate)] *)
Definition tab_mapped (data : Data) (t : tab) : Z :=
  py_int (inject_Z (tab_total data t) * tab_rate t).

(** [unmapped = total - mapped] *)
Definition tab_unmapped (data : Data) (t : tab) : Z :=
  tab_total data t - tab_mapped data t.

(** the rows handed to the data frame *)
Definition tab_rows (data : Data) (t : tab) : list tab_row :=
  map (fun ic => tab_build t ic.1 ic.2)
      (enumerate_1 (slice_to (tab_codes t) (tab_unmapped data t))).

(** the numbers of the message under the table: unmapped, total, and the
    percentage (printed with one decimal; the printing is not modelled) *)
Definition tab_info (data : Data) (t : tab) : shown (Z * Z * Q) :=
  if (tab_total data t =? 0)%Z then Fails ZeroDivisionError
  else Shown (tab_unmapped data t, tab_total data t,
              (inject_Z (tab_unmapped data t) / inject_Z (tab_total data t)
               * 100)%Q).

(** the tabs one after the other: each shows its rows, then its message;
    the first exception ends the page *)
Fixpoint render_tabs (data : Data) (tabs : list tab)
  : shown (list (list tab_row * (Z * Z * Q))) :=
  match tabs with
  | [] => Shown []
  | t :: rest =>
      match tab_info data t with
      | Fails e => Fails e
      | Shown info =>
          match render_tabs data rest with
          | Fails e => Fails e
          | Shown others => Shown ((tab_rows data t, info) :: others)
          end
      end
  end.

Definition conditions_tab : tab :=
  mkTab "conditions" 54 0.467 condition_codes condition_row.

(** a disk where the conditions file is there and has no rows *)
Definition empty_conditions_disk : filesystem :=
  mkFs (fun path =>
          if String.eqb path "data/synthea/patients.csv" then Rows 30
          else if String.eqb path "data/synthea/conditions.csv" then Rows 0
          else NoFile) true [].

(** a statement that leaves the store as it found it *)
Definition readonly {A} (m : M A) : Prop := forall d, (m d).2 = d.

(** * Properties *)

(** ** The store is only read *)

Section Frame.

Lemma readonly_ret {A} (a : A) : readonly (ret a).
Proof. intros d. reflexivity. Qed.

Lemma readonly_gets {A} (f : Data -> A) : readonly (gets f).
Proof. intros d. reflexivity. Qed.

Lemma readonly_lift {A} (o : outcome A) : readonly (lift o).
Proof. intros d. reflexivity. Qed.

Lemma readonly_bind {A B} (m : M A) (k : A -> M B) :
  readonly m -> (forall a, readonly (k a)) -> readonly (bind m k).
Proof.
  intros Hm Hk d. unfold bind.
  specialize (Hm d). destruct (m d) as [[a | e] d']; simpl in *; subst d'.
  - apply Hk.
  - reflexivity.
Qed.

Lemma readonly_if {A} (b : bool) (m1 m2 : M A) :
  readonly m1 -> readonly m2 -> readonly (if b then m1 else m2).
Proof. destruct b; auto. Qed.

(** the writing primitive is not of that kind *)
Lemma put_writes : ~ readonly (put scenario_A).
Proof.
  intros H. specialize (H scenario_B). simpl in H.
  apply (f_equal (fun d => omop d !! "person")) in H.
  vm_compute in H. discriminate.
Qed.

End Frame.

Create HintDb frame.
#[local] Hint Resolve readonly_ret readonly_gets readonly_lift : frame.
#[local] Hint Extern 2 (readonly (bind _ _)) =>
  apply readonly_bind; [ | intros ? ] : frame.
#[local] Hint Extern 2 (readonly (if _ then _ else _)) =>
  apply readonly_if : frame.

Lemma readonly_report_has key : readonly (report_has key).
Proof. unfold report_has. auto with frame. Qed.
#[local] Hint Resolve readonly_report_has : frame.

Lemma readonly_success_rate tp op : readonly (success_rate_stmt tp op).
Proof. unfold success_rate_stmt. auto 10 with frame. Qed.

Lemma readonly_processing_time : readonly processing_time_stmt.
Proof. unfold processing_time_stmt. auto 12 with frame. Qed.

Lemma readonly_db_connected : readonly db_connected_stmt.
Proof. unfold db_connected_stmt. auto with frame. Qed.

Lemma readonly_concept_rate : readonly concept_rate_stmt.
Proof. unfold concept_rate_stmt. auto 16 with frame. Qed.

#[local] Hint Resolve readonly_success_rate readonly_processing_time
  readonly_db_connected readonly_concept_rate : frame.

Lemma readonly_calculate_metrics : readonly calculate_metrics.
Proof.
  unfold calculate_metrics, synthea_get, omop_get.
  repeat (apply readonly_bind; [ auto with frame | intros ? ]).
  apply readonly_ret.
Qed.

(** ** What the statements compute on a report of the expected shape *)

Lemma report_has_eq key d :
  report_has key d =
  ((if Py.truthy (pipeline_report d)
    then Py.contains key (pipeline_report d) else Return false), d).
Proof.
  unfold report_has, bind, gets, lift, ret.
  destruct (Py.truthy (pipeline_report d)); reflexivity.
Qed.

Lemma report_has_ok key r :
  report_ok r = true ->
  (if Py.truthy r then Py.contains key r else Return false) =
  Return (bool_decide (is_Some (at_path [key] r))).
Proof.
  intros Hok.
  destruct r as [ | b | q | s | l | items].
  1-5: cbv beta iota delta [report_ok] in Hok;
       apply negb_true_iff in Hok; rewrite Hok;
       reflexivity.
  destruct items as [ | [k v] rest ].
  - reflexivity.
  - cbn [Py.truthy Py.contains at_path]. f_equal. apply bool_decide_ext.
    destruct (Py.lookup key ((k, v) :: rest)).
    + split; eauto.
    + split; intros [? ?]; discriminate.
Qed.

Lemma success_rate_stmt_ok tp op d :
  report_ok (pipeline_report d) = true ->
  success_rate_stmt tp op d =
  (Return
     match at_path ["validation_results"] (pipeline_report d) with
     | Some _ =>
         default (JNum 0.95) (reported_success_rate (pipeline_report d))
     | None =>
         if tp >? 0
         then JNum (Py.min (inject_Z op / inject_Z tp) 1)
         else JNum 0.95
     end, d).
Proof.
  intros Hok. unfold success_rate_stmt, bind.
  rewrite report_has_eq, (report_has_ok _ _ Hok).
  unfold reported_success_rate, gets, lift, ret.
  destruct d as [sy om r]; cbn [pipeline_report] in *.
  destruct r as [ | b | q | s | l | items];
    try (simpl; destruct (tp >? 0); reflexivity).
  cbn [at_path report_ok] in Hok |- *. unfold optional in Hok.
  destruct (Py.lookup "validation_results" items) as [vr | ] eqn:Hvr.
  2: { simpl. rewrite ?Hvr. destruct (tp >? 0); reflexivity. }
  apply andb_true_iff in Hok as [Hvr_ok _].
  destruct vr as [ | | | | | sections]; try discriminate.
  simpl in Hvr_ok. apply andb_true_iff in Hvr_ok as [Hsum _].
  unfold optional in Hsum. simpl. rewrite ?Hvr. simpl.
  destruct (Py.lookup "summary" sections) as [sm | ]; [ | reflexivity ].
  destruct sm as [ | | | | | fields]; try discriminate. simpl.
  destruct (Py.lookup "overall_success_rate" fields); reflexivity.
Qed.

Lemma Qsum_nil : Qsum [] = 0%Q.
Proof. reflexivity. Qed.

Lemma Qsum_cons q qs : Qsum (q :: qs) = (q + Qsum qs)%Q.
Proof. reflexivity. Qed.

Lemma exposed_object k name fields :
  exposed k (name, JObj fields) =
  match Py.lookup k fields with
  | Some (JNum q) => Some q
  | _ => None
  end.
Proof.
  unfold exposed. simpl. destruct (Py.lookup k fields); reflexivity.
Qed.

Lemma exposed_other k name v :
  Py.is_dict v = false -> exposed k (name, v) = None.
Proof. destruct v; simpl; intros; try reflexivity. discriminate. Qed.

Lemma sum_durations_ok acc phases :
  forallb (fun e => phase_ok e.2) phases = true ->
  exists t, sum_durations acc (map snd phases) = Return t /\
            (t == acc + Qsum (omap (exposed "duration_seconds") phases))%Q.
Proof.
  revert acc. induction phases as [ | [name phase] rest IH]; intros acc Hok.
  - exists acc. split; [ reflexivity | ].
    cbn [omap list_omap]. rewrite Qsum_nil. ring.
  - simpl in Hok. apply andb_true_iff in Hok as [Hphase Hrest].
    destruct phase as [ | | | | | fields]; try discriminate.
    unfold phase_ok, optional in Hphase.
    cbn [map snd sum_durations Py.get obind omap list_omap].
    rewrite exposed_object.
    destruct (Py.lookup "duration_seconds" fields) as [v | ].
    + destruct v as [ | | q | | | ]; try discriminate.
      destruct (IH (acc + q)%Q Hrest) as (t & Ht & Heq).
      exists t. split; [ exact Ht | ].
      rewrite Heq, Qsum_cons. ring.
    + destruct (IH (acc + 0)%Q Hrest) as (t & Ht & Heq).
      exists t. split; [ exact Ht | ].
      rewrite Heq. ring.
Qed.

Lemma processing_time_stmt_ok d :
  report_ok (pipeline_report d) = true ->
  exists pt, processing_time_stmt d = (Return pt, d) /\
    match phase_durations (pipeline_report d) with
    | Some ds => (0 < Qsum ds -> pt == Qsum ds)%Q /\
                 (Qsum ds <= 0 -> pt = 180)%Q
    | None => pt = 180%Q
    end.
Proof.
  intros Hok. unfold processing_time_stmt, bind.
  rewrite report_has_eq, (report_has_ok _ _ Hok).
  unfold phase_durations, gets, lift, ret.
  destruct d as [sy om r]; cbn [pipeline_report] in *.
  destruct r as [ | b | q | s | l | items];
    try (exists 180%Q; split; reflexivity).
  cbn [at_path report_ok] in Hok |- *. unfold optional in Hok.
  destruct (Py.lookup "phase_performance" items) as [pp | ] eqn:Hpp.
  2: { exists 180%Q; split; reflexivity. }
  apply andb_true_iff in Hok as [_ Hpp_ok].
  destruct pp as [ | | | | | phases]; try discriminate.
  simpl in Hpp_ok.
  destruct (sum_durations_ok 0 phases Hpp_ok) as (t & Ht & Heq).
  simpl. rewrite Hpp. simpl. rewrite Ht.
  eexists; split; [ reflexivity | ].
  rewrite Qplus_0_l in Heq. unfold Py.gt.
  split; intros Hsum.
  - destruct (Qle_bool t 0) eqn:Hle; simpl; [ | exact Heq ].
    apply Qle_bool_iff in Hle. rewrite Heq in Hle.
    exfalso. apply (Qlt_not_le _ _ Hsum Hle).
  - rewrite <- Heq in Hsum. apply Qle_bool_iff in Hsum.
    rewrite Hsum. reflexivity.
Qed.

Lemma collect_rates_ok entries rates :
  forallb (fun e => coverage_entry_ok e.2) entries = true ->
  collect_rates entries rates =
  Return (rates ++ map JNum (omap (exposed "mapped_rate") entries))%list.
Proof.
  revert rates. induction entries as [ | [name stats] rest IH];
    intros rates Hok.
  - simpl. rewrite app_nil_r. reflexivity.
  - simpl in Hok. apply andb_true_iff in Hok as [Hentry Hrest].
    destruct stats as [ | | | | | fields];
      try (cbn [omap list_omap]; rewrite exposed_other by reflexivity;
           simpl; apply IH; exact Hrest).
    unfold coverage_entry_ok, optional in Hentry.
    cbn [collect_rates Py.is_dict Py.contains Py.getitem obind
         omap list_omap].
    rewrite exposed_object.
    destruct (Py.lookup "mapped_rate" fields) as [v | ].
    + destruct v as [ | | q | | | ]; try discriminate.
      simpl. rewrite (IH _ Hrest), <- app_assoc. reflexivity.
    + simpl. apply IH. exact Hrest.
Qed.

Lemma sum_from_numbers acc qs :
  exists t, Py.sum_from acc (map JNum qs) = Return t /\
            (t == acc + Qsum qs)%Q.
Proof.
  revert acc. induction qs as [ | q rest IH]; intros acc.
  - exists acc. split; [ reflexivity | rewrite Qsum_nil; ring ].
  - destruct (IH (acc + q)%Q) as (t & Ht & Heq).
    exists t. split; [ exact Ht | ].
    rewrite Heq, Qsum_cons. ring.
Qed.

Lemma concept_rate_stmt_ok d :
  report_ok (pipeline_report d) = true ->
  exists cr, concept_rate_stmt d = (Return cr, d) /\
    (mapped_rates (pipeline_report d) <> [] ->
     (cr == mean (mapped_rates (pipeline_report d)))%Q) /\
    (mapped_rates (pipeline_report d) = [] -> cr = 0.92%Q).
Proof.
  intros Hok. unfold concept_rate_stmt, bind.
  rewrite report_has_eq, (report_has_ok _ _ Hok).
  unfold mapped_rates, gets, lift, ret.
  destruct d as [sy om r]; cbn [pipeline_report] in *.
  assert (Hdefault : forall qs : list Q, qs = [] ->
            exists cr, (Return 0.92%Q, mkData sy om r) = (Return cr, mkData sy om r) /\
              (qs <> [] -> (cr == mean qs)%Q) /\ (qs = [] -> cr = 0.92%Q)).
  { intros qs ->. exists 0.92%Q. repeat split; congruence. }
  destruct r as [ | b | q | s | l | items];
    try (apply Hdefault; reflexivity).
  cbn [at_path report_ok] in Hok |- *. unfold optional in Hok.
  destruct (Py.lookup "validation_results" items) as [vr | ] eqn:Hvr.
  2: { apply Hdefault; reflexivity. }
  apply andb_true_iff in Hok as [Hvr_ok _].
  destruct vr as [ | | | | | sections]; try discriminate.
  simpl in Hvr_ok. apply andb_true_iff in Hvr_ok as [_ Hcc].
  unfold optional in Hcc. simpl. rewrite ?Hvr. simpl.
  destruct (Py.lookup "concept_coverage" sections) as [cc | ].
  2: { apply Hdefault; reflexivity. }
  destruct cc as [ | b | q | s | l | entries];
    try (cbv beta iota delta [coverage_ok] in Hcc;
         apply negb_true_iff in Hcc; cbn [default from_option id];
         rewrite Hcc; apply Hdefault; reflexivity).
  simpl in Hcc. cbn [default from_option id].
  destruct entries as [ | entry entries' ].
  { apply Hdefault; reflexivity. }
  cbn [Py.truthy Py.items].
  rewrite (collect_rates_ok _ [] Hcc). rewrite app_nil_l.
  destruct (omap (exposed "mapped_rate") (entry :: entries')) as [ | q qs ].
  { apply Hdefault; reflexivity. }
  cbn [map Py.truthy]. unfold Py.sum.
  destruct (sum_from_numbers 0 (q :: qs)) as (t & Ht & Heq).
  cbn [map] in Ht. rewrite Ht.
  eexists; split; [ reflexivity | ]. split; [ intros _ | discriminate ].
  unfold mean, len. rewrite Heq, Qplus_0_l.
  change (length (JNum q :: map JNum qs)) with (S (length (map JNum qs))).
  rewrite length_map. reflexivity.
Qed.

(** the whole function, from its four computed statements *)
Lemma calculate_metrics_from_stmts d sr pt cr :
  success_rate_stmt (dict_get (synthea d) "patients" 0)
                    (dict_get (omop d) "person" 0) d = (Return sr, d) ->
  processing_time_stmt d = (Return pt, d) ->
  concept_rate_stmt d = (Return cr, d) ->
  calculate_metrics d =
  (Return
     {| total_patients := dict_get (synthea d) "patients" 0;
        total_encounters := dict_get (synthea d) "encounters" 0;
        total_conditions := dict_get (synthea d) "conditions" 0;
        total_medications := dict_get (synthea d) "medications" 0;
        total_procedures := dict_get (synthea d) "procedures" 0;
        total_observations := dict_get (synthea d) "observations" 0;
        omop_persons := dict_get (omop d) "person" 0;
        omop_visits := dict_get (omop d) "visit_occurrence" 0;
        omop_conditions := dict_get (omop d) "condition_occurrence" 0;
        omop_drugs := dict_get (omop d) "drug_exposure" 0;
        omop_procedures := dict_get (omop d) "procedure_occurrence" 0;
        omop_measurements := dict_get (omop d) "measurement" 0;
        omop_observations := dict_get (omop d) "observation" 0;
        success_rate := sr;
        processing_time := pt;
        db_connected := bool_decide (0 < size (omop d))%nat;
        concept_rate := cr |}, d).
Proof.
  intros Hsr Hpt Hcr.
  cbv beta iota delta [calculate_metrics bind synthea_get omop_get gets].
  rewrite Hsr. cbv beta iota. rewrite Hpt. cbv beta iota.
  cbv beta iota delta [db_connected_stmt bind gets ret].
  rewrite Hcr. reflexivity.
Qed.

Lemma calculate_metrics_ok d :
  report_ok (pipeline_report d) = true ->
  exists m, calculate_metrics d = (Return m, d) /\
    total_patients m = patients d /\
    omop_persons m = persons d /\
    success_rate m =
      match at_path ["validation_results"] (pipeline_report d) with
      | Some _ =>
          default (JNum 0.95) (reported_success_rate (pipeline_report d))
      | None =>
          if patients d >? 0 then JNum (derived_ratio d) else JNum 0.95
      end /\
    match phase_durations (pipeline_report d) with
    | Some ds => (0 < Qsum ds -> processing_time m == Qsum ds)%Q /\
                 (Qsum ds <= 0 -> processing_time m = 180)%Q
    | None => processing_time m = 180%Q
    end /\
    db_connected m = bool_decide (0 < size (omop d))%nat /\
    (mapped_rates (pipeline_report d) <> [] ->
     (concept_rate m == mean (mapped_rates (pipeline_report d)))%Q) /\
    (mapped_rates (pipeline_report d) = [] -> concept_rate m = 0.92%Q).
Proof.
  intros Hok.
  destruct (processing_time_stmt_ok d Hok) as (pt & Hpt & Hpt_val).
  destruct (concept_rate_stmt_ok d Hok) as (cr & Hcr & Hcr_mean & Hcr_dflt).
  eexists. split.
  - apply calculate_metrics_from_stmts;
      [ apply success_rate_stmt_ok; exact Hok | exact Hpt | exact Hcr ].
  - cbn [total_patients omop_persons success_rate processing_time
         db_connected concept_rate].
    repeat split; try assumption; reflexivity.
Qed.

(** ** The metrics *)

(** C10: [calculate_metrics] only reads its inputs.  Whatever the store
    holds, and whether the call returns or raises, the store it leaves is
    the store it was given: the source counts, the target counts and the
    pipeline report are exactly as before, key by key. *)
Theorem calculate_metrics_preserves_inputs (d : Data) :
  store_after d = d /\
  (forall k, synthea (store_after d) !! k = synthea d !! k) /\
  (forall k, omop (store_after d) !! k = omop d !! k) /\
  pipeline_report (store_after d) = pipeline_report d.
Proof.
  assert (H : store_after d = d) by apply readonly_calculate_metrics.
  rewrite H. auto.
Qed.

Lemma no_validation_no_rate r :
  at_path ["validation_results"] r = None -> reported_success_rate r = None.
Proof.
  unfold reported_success_rate. cbn [at_path]. intros Hvr.
  destruct r as [ | | | | | items]; try reflexivity.
  destruct (Py.lookup "validation_results" items); [ | reflexivity ].
  discriminate.
Qed.

(** C1, as stated, fails: with 30 patients, 15 persons and a report that
    has validation results but no recorded rate, the three-tier rule gives
    the derived ratio 15/30 while the function returns 0.95. *)
Lemma success_rate_three_tier_counterexample :
  reported_success_rate (pipeline_report partial_report) = None /\
  0 < patients partial_report /\
  three_tier partial_report = JNum (derived_ratio partial_report) /\
  field success_rate (result_of partial_report) = Some (JNum 0.95) /\
  ~ (0.95 == derived_ratio partial_report)%Q.
Proof.
  repeat split; try reflexivity.
  vm_compute. discriminate.
Qed.

(** C1, amended: on a report of the expected shape the call returns, and
    the success rate is the recorded rate when the report carries one; the
    default 0.95 when the report has validation results but no recorded
    rate; and only when the report has no validation results at all, the
    ratio of persons to patients capped at 1 if there are patients, the
    default 0.95 otherwise. *)
Theorem success_rate_tiers (d : Data) :
  report_ok (pipeline_report d) = true ->
  exists m, result_of d = Return m /\
    (forall v, reported_success_rate (pipeline_report d) = Some v ->
               success_rate m = v) /\
    (reported_success_rate (pipeline_report d) = None ->
     at_path ["validation_results"] (pipeline_report d) <> None ->
     success_rate m = JNum 0.95) /\
    (at_path ["validation_results"] (pipeline_report d) = None ->
     0 < patients d ->
     success_rate m = JNum (derived_ratio d)) /\
    (at_path ["validation_results"] (pipeline_report d) = None ->
     patients d <= 0 ->
     success_rate m = JNum 0.95).
Proof.
  intros Hok.
  destruct (calculate_metrics_ok d Hok) as (m & Hrun & _ & _ & Hsr & _).
  exists m. split; [ unfold result_of; rewrite Hrun; reflexivity | ].
  rewrite Hsr. clear Hsr Hrun.
  destruct (at_path ["validation_results"] (pipeline_report d)) eqn:Hvr.
  - repeat split; try discriminate.
    + intros v Hv. rewrite Hv. reflexivity.
    + intros Hnone _. rewrite Hnone. reflexivity.
  - pose proof (no_validation_no_rate _ Hvr) as Hnone.
    repeat split; try congruence.
    + intros _ Hpos. apply Z.gtb_lt in Hpos. rewrite Hpos. reflexivity.
    + intros _ Hle. destruct (patients d >? 0) eqn:Hgt; [ | reflexivity ].
      apply Z.gtb_lt in Hgt. lia.
Qed.

Lemma success_rate_tiers_witness :
  report_ok (pipeline_report scenario_B) = true /\
  exists m, result_of scenario_B = Return m /\
    success_rate m = JNum (derived_ratio scenario_B).
Proof.
  split; [ reflexivity | ].
  destruct (success_rate_tiers scenario_B eq_refl)
    as (m & Hrun & _ & _ & Hderived & _).
  exists m. split; [ exact Hrun | ].
  apply Hderived; reflexivity.
Defined.

Lemma derived_ratio_in_unit d :
  0 < patients d -> 0 <= persons d ->
  in_unit_interval (JNum (derived_ratio d)) = true.
Proof.
  intros Hpos Hnonneg. unfold derived_ratio, Py.min, in_unit_interval.
  destruct (Qle_bool (inject_Z (persons d) / inject_Z (patients d)) 1)
    eqn:Hle; [ | reflexivity ].
  rewrite Hle, andb_true_r. apply Qle_bool_iff.
  apply Qle_shift_div_l.
  - change 0%Q with (inject_Z 0). rewrite <- Zlt_Qlt. exact Hpos.
  - rewrite Qmult_0_l. change 0%Q with (inject_Z 0).
    rewrite <- Zle_Qle. exact Hnonneg.
Qed.

(** C2, as stated, fails: a report that records the rate 1.5 gets 1.5
    back as the success rate, which is outside the interval. *)
Lemma success_rate_range_counterexample :
  report_ok (pipeline_report over_reported) = true /\
  field success_rate (result_of over_reported) = Some (JNum 1.5) /\
  in_unit_interval (JNum 1.5) = false.
Proof. repeat split; reflexivity. Qed.

(** C2, amended: on a report of the expected shape and with a
    non-negative person count the call returns, and the success rate lies
    between 0 and 1 exactly when the rate the report records, if it
    records one, lies there: derived and default rates are always in the
    interval, a recorded rate is passed on as it is, without clamping. *)
Theorem success_rate_in_unit_interval (d : Data) :
  report_ok (pipeline_report d) = true ->
  0 <= persons d ->
  exists m, result_of d = Return m /\
    (in_unit_interval (success_rate m) = true <->
     forall v, reported_success_rate (pipeline_report d) = Some v ->
               in_unit_interval v = true).
Proof.
  intros Hok Hnonneg.
  destruct (calculate_metrics_ok d Hok) as (m & Hrun & _ & _ & Hsr & _).
  exists m. split; [ unfold result_of; rewrite Hrun; reflexivity | ].
  rewrite Hsr. clear Hsr Hrun.
  destruct (at_path ["validation_results"] (pipeline_report d)) eqn:Hvr.
  - destruct (reported_success_rate (pipeline_report d)) as [v | ];
      cbn [default from_option id].
    + split; [ intros Hin v' [= <-]; exact Hin | intros Hall; auto ].
    + split; [ intros _ v' [=] | reflexivity ].
  - rewrite (no_validation_no_rate _ Hvr).
    split; [ intros _ v' [=] | intros _ ].
    destruct (patients d >? 0) eqn:Hgt; [ | reflexivity ].
    apply derived_ratio_in_unit; [ apply Z.gtb_lt | ]; assumption.
Qed.

Lemma success_rate_in_unit_interval_witness :
  report_ok (pipeline_report scenario_B) = true /\
  0 <= persons scenario_B /\
  exists m, result_of scenario_B = Return m /\
    in_unit_interval (success_rate m) = true.
Proof.
  split; [ reflexivity | ]. split; [ discriminate | ].
  destruct (success_rate_in_unit_interval scenario_B eq_refl)
    as (m & Hrun & Hiff).
  - discriminate.
  - exists m. split; [ exact Hrun | ].
    apply Hiff. intros v [=].
Defined.

(** C3, as stated, fails: when the only target table is there and holds
    no rows, no target count is positive and the flag is true all the
    same. *)
Lemma db_connected_counterexample :
  map_to_list (omop empty_target_tables) = [("person", 0)] /\
  field db_connected (result_of empty_target_tables) = Some true.
Proof. split; reflexivity. Qed.

(** C3, amended: on a report of the expected shape the call returns, and
    the flag is true exactly when the target counts have at least one
    entry, whatever its count; so it is true whenever some target count is
    positive, and false only when there is no entry at all. *)
Theorem db_connected_iff_nonempty (d : Data) :
  report_ok (pipeline_report d) = true ->
  exists m, result_of d = Return m /\
    (db_connected m = true <-> omop d <> ∅) /\
    ((exists k v, omop d !! k = Some v /\ 0 < v) -> db_connected m = true).
Proof.
  intros Hok.
  destruct (calculate_metrics_ok d Hok)
    as (m & Hrun & _ & _ & _ & _ & Hdb & _).
  exists m. split; [ unfold result_of; rewrite Hrun; reflexivity | ].
  assert (Hiff : db_connected m = true <-> omop d <> ∅).
  { rewrite Hdb, bool_decide_eq_true, <- map_size_non_empty_iff. lia. }
  split; [ exact Hiff | ].
  intros (k & v & Hk & _). apply Hiff. intros Hempty.
  rewrite Hempty, lookup_empty in Hk. discriminate.
Qed.

Lemma db_connected_iff_nonempty_witness :
  report_ok (pipeline_report empty_target_tables) = true /\
  exists m, result_of empty_target_tables = Return m /\
    db_connected m = true.
Proof.
  split; [ reflexivity | ].
  destruct (db_connected_iff_nonempty empty_target_tables eq_refl)
    as (m & Hrun & Hiff & _).
  exists m. split; [ exact Hrun | ].
  apply Hiff. intros Hempty.
  apply (f_equal (fun counts => counts !! "person")) in Hempty.
  vm_compute in Hempty. discriminate.
Defined.

(** C7: on a report of the expected shape the call returns; when at least
    one entry of [concept_coverage] exposes a [mapped_rate], the concept
    mapping rate is the unweighted mean of the rates that are present,
    the entries without one being left out of both the sum and the count;
    when no entry exposes one, it is the default 0.92. *)
Theorem concept_rate_is_mean (d : Data) :
  report_ok (pipeline_report d) = true ->
  exists m, result_of d = Return m /\
    (mapped_rates (pipeline_report d) <> [] ->
     (concept_rate m == mean (mapped_rates (pipeline_report d)))%Q) /\
    (mapped_rates (pipeline_report d) = [] -> concept_rate m = 0.92%Q).
Proof.
  intros Hok.
  destruct (calculate_metrics_ok d Hok)
    as (m & Hrun & _ & _ & _ & _ & _ & Hmean & Hdflt).
  exists m. split; [ unfold result_of; rewrite Hrun; reflexivity | ].
  split; assumption.
Qed.

(** Scenario D: coverage 0.467 and 0.88 gives 0.6735. *)
Lemma concept_rate_is_mean_witness :
  report_ok (pipeline_report scenario_D) = true /\
  exists m, result_of scenario_D = Return m /\
    (concept_rate m == 0.6735)%Q.
Proof.
  split; [ reflexivity | ].
  destruct (concept_rate_is_mean scenario_D eq_refl) as (m & Hrun & Hmean & _).
  exists m. split; [ exact Hrun | ].
  rewrite Hmean; [ reflexivity | discriminate ].
Defined.

(** an entry without the field does not count as a zero *)
Example missing_rate_is_skipped :
  let coverage := JObj [("conditions", JObj [("mapped_rate", JNum 0.5)]);
                        ("drugs", JObj [("unmapped", JNum 3)])] in
  let d := mkData ∅ ∅
             (JObj [("validation_results",
                     JObj [("concept_coverage", coverage)])]) in
  mapped_rates (pipeline_report d) = [0.5%Q] /\
  field concept_rate (result_of d) = Some (0.5 / 1)%Q.
Proof. split; reflexivity. Qed.

(** C6, on the failing input: a [mapped_rate] that is a string passes the
    guard of the loop, is appended to the rates, and [sum] raises; the
    whole call fails instead of leaving the entry out. *)
Theorem malformed_rate_raises :
  result_of malformed_rate = Raise TypeError.
Proof. reflexivity. Qed.

(** the guard does leave out an entry that is not an object *)
Example malformed_entry_is_skipped :
  field concept_rate (result_of malformed_entry) = Some (0.88 / 1)%Q.
Proof. reflexivity. Qed.

(** C8: on a report of the expected shape the call returns; the
    processing time is the sum of the declared phase durations when the
    report has the section and the sum is positive, and the default 180
    when the sum is zero, when the section is missing and when there is no
    report. *)
Theorem processing_time_is_sum_or_default (d : Data) :
  report_ok (pipeline_report d) = true ->
  exists m, result_of d = Return m /\
    (forall ds, phase_durations (pipeline_report d) = Some ds ->
                (0 < Qsum ds)%Q -> (processing_time m == Qsum ds)%Q) /\
    (forall ds, phase_durations (pipeline_report d) = Some ds ->
                (Qsum ds == 0)%Q -> processing_time m = 180%Q) /\
    (phase_durations (pipeline_report d) = None ->
     processing_time m = 180%Q) /\
    (pipeline_report d = JObj [] -> processing_time m = 180%Q).
Proof.
  intros Hok.
  destruct (calculate_metrics_ok d Hok)
    as (m & Hrun & _ & _ & _ & Hpt & _).
  exists m. split; [ unfold result_of; rewrite Hrun; reflexivity | ].
  destruct (phase_durations (pipeline_report d)) as [ds | ] eqn:Hds.
  - destruct Hpt as [Hpos Hzero]. repeat split.
    + intros ds' [= <-]. exact Hpos.
    + intros ds' [= <-] Heq. apply Hzero. rewrite Heq. apply Qle_refl.
    + discriminate.
    + intros Habsent. rewrite Habsent in Hds. discriminate.
  - repeat split; try discriminate; intros; exact Hpt.
Qed.

(** phases of 12.5 and 30 seconds, and one without a duration: 42.5 *)
Lemma processing_time_is_sum_or_default_witness :
  report_ok (pipeline_report timed_report) = true /\
  exists m, result_of timed_report = Return m /\
    (processing_time m == 42.5)%Q.
Proof.
  split; [ reflexivity | ].
  destruct (processing_time_is_sum_or_default timed_report eq_refl)
    as (m & Hrun & Hsum & _).
  exists m. split; [ exact Hrun | ].
  rewrite (Hsum _ eq_refl); reflexivity.
Defined.

(** ** The comparison table *)

(** the table has one row for each declared correspondence *)
Lemma comparison_data_length d :
  length (comparison_data d) = length correspondences.
Proof. reflexivity. Qed.

Ltac each_row Hc :=
  repeat match type of Hc with
         | (_ !! ?i) = Some _ => is_var i; destruct i; cbn in Hc
         end;
  try discriminate Hc; injection Hc as <-.

Ltac row_condition :=
  match goal with
  | |- context [if ?b then _ else _] => destruct b eqn:?
  end.

(** C9: whatever the snapshot, the row of a one-to-many correspondence
    shows as its target count the exact sum of the counts of its declared
    target tables, an absent table counting for 0, and is classified
    Transformed when that sum is positive. *)
Theorem one_to_many_rows (d : Data) (i : nat) (c : correspondence) :
  correspondences !! i = Some c ->
  is_one_to_many c = true ->
  exists r, comparison_data d !! i = Some r /\
    Registros_Synthea r = Py.str (source_count d c) /\
    Registros_OMOP r = Py.str (target_count d c) /\
    (0 < target_count d c -> class_of r = Some Transformed).
Proof.
  intros Hc Hmany. each_row Hc; try discriminate Hmany;
    (eexists; split; [ reflexivity | ]);
    unfold source_count, target_count, class_of;
    cbn [row_split Registros_Synthea Registros_OMOP Integridad
         source_of targets_of map foldr];
    rewrite Z.add_0_r;
    (split; [ reflexivity | ]); (split; [ reflexivity | ]);
    intros Hpos; apply Z.gtb_lt in Hpos; rewrite Hpos; reflexivity.
Qed.

(** Scenario C: 50 observations against 20 measurements and 30
    observations. *)
Lemma one_to_many_rows_witness :
  exists r, comparison_data scenario_C !! 5%nat = Some r /\
    Registros_Synthea r = "50" /\
    Registros_OMOP r = "50" /\
    class_of r = Some Transformed.
Proof.
  destruct (one_to_many_rows scenario_C 5
              (OneToMany "observations" ["measurement"; "observation"])
              eq_refl eq_refl)
    as (r & Hrow & Hsrc & Htgt & Hclass).
  exists r. split; [ exact Hrow | ].
  split; [ exact Hsrc | ]. split; [ exact Htgt | ].
  apply Hclass. reflexivity.
Defined.

(** C4, as stated, fails: with nothing loaded the row of patients against
    person has source count 0 and target count 0, and its class is Exact,
    not NoData. *)
Lemma nodata_iff_counterexample :
  correspondences !! 0%nat = Some (OneToOne "patients" "person") /\
  source_count empty_snapshot (OneToOne "patients" "person") = 0 /\
  target_count empty_snapshot (OneToOne "patients" "person") = 0 /\
  class_of <$> comparison_data empty_snapshot !! 0%nat = Some (Some Exact).
Proof. repeat split; reflexivity. Qed.

(** C4, amended: with a non-negative source count, a row is classified
    NoData exactly when it is the row of the correspondence whose target
    is included in another table (allergies) and its source count is 0;
    the row of a one-to-one correspondence with both counts 0 is
    classified Exact. *)
Theorem nodata_classification (d : Data) (i : nat) (c : correspondence) :
  correspondences !! i = Some c ->
  0 <= source_count d c ->
  exists r, comparison_data d !! i = Some r /\
    Registros_Synthea r = Py.str (source_count d c) /\
    (class_of r = Some NoData <->
     is_included c = true /\ source_count d c = 0) /\
    (is_one_to_one c = true ->
     source_count d c = 0 -> target_count d c = 0 ->
     class_of r = Some Exact).
Proof.
  intros Hc Hnonneg. each_row Hc;
    (eexists; split; [ reflexivity | ]);
    unfold source_count, target_count, class_of in *;
    cbn [row_1_1 row_split Registros_Synthea Integridad
         source_of targets_of map foldr is_included is_one_to_one] in *;
    (split; [ reflexivity | ]); split.
  all: try (intros _ Hs Ht; rewrite Z.add_0_r in Ht; rewrite Hs, Ht;
            reflexivity).
  all: try discriminate.
  all: row_condition;
    (split; [ intros Hclass | intros [Hincl Hzero] ]);
    try discriminate Hclass; try discriminate Hincl.
  - apply Z.gtb_lt in Heqb. lia.
  - split; [ reflexivity | ].
    rewrite Z.gtb_ltb in Heqb. apply Z.ltb_ge in Heqb. lia.
  - reflexivity.
Qed.

Lemma nodata_classification_witness :
  exists r, comparison_data scenario_C !! 9%nat = Some r /\
    Registros_Synthea r = "0" /\
    class_of r = Some NoData.
Proof.
  destruct (nodata_classification scenario_C 9 (Included "allergies") eq_refl)
    as (r & Hrow & Hsrc & Hiff & _).
  - discriminate.
  - exists r. split; [ exact Hrow | ]. split; [ exact Hsrc | ].
    apply Hiff. split; reflexivity.
Defined.

(** ** The loader *)

Lemma load_counts_no_file fs dir files loaded :
  (forall path, csv fs path = NoFile) ->
  fold_left (load_file fs dir) files loaded = loaded.
Proof.
  intros Hnone. revert loaded.
  induction files as [ | file rest IH]; intros loaded; cbn [fold_left].
  - reflexivity.
  - unfold load_file at 2. rewrite Hnone. apply IH.
Qed.

Lemma load_real_data_no_file fs :
  (forall path, csv fs path = NoFile) ->
  load_real_data fs = mkData ∅ ∅ (load_pipeline_report fs).
Proof.
  intros Hnone. unfold load_real_data, load_counts.
  rewrite !load_counts_no_file by exact Hnone. reflexivity.
Qed.

(** a file the loader could not read counts as an empty table *)
Example unreadable_file_counts_zero :
  let fs := mkFs (fun path =>
                    if String.eqb path "data/omop/person.csv"
                    then Unreadable else NoFile) true [] in
  map_to_list (omop (load_real_data fs)) = [("person", 0)] /\
  field db_connected (main_metrics fs) = Some true.
Proof. split; reflexivity. Qed.

(** C5, as stated, fails: with no file anywhere the loader hands over
    empty counts and an empty report, and the computation returns the
    default metrics; nothing is raised. *)
Lemma missing_snapshot_counterexample :
  load_real_data no_files = empty_snapshot /\
  main_metrics no_files = Return default_metrics.
Proof. split; reflexivity. Qed.

(** C5, amended: when none of the count files exists, the loader yields
    empty counts and the computation returns normally for an absent or
    well-shaped report: the patient and person counts are 0 and the
    target flag is false; with no report at all the result is the default
    metrics (success rate 0.95, 180 seconds, concept rate 0.92). *)
Theorem missing_snapshot_returns_defaults (fs : filesystem) :
  (forall path, csv fs path = NoFile) ->
  report_ok (load_pipeline_report fs) = true ->
  exists m, main_metrics fs = Return m /\
    total_patients m = 0 /\
    omop_persons m = 0 /\
    db_connected m = false /\
    (load_pipeline_report fs = JObj [] -> m = default_metrics).
Proof.
  intros Hnone Hok. unfold main_metrics.
  rewrite (load_real_data_no_file fs Hnone).
  destruct (calculate_metrics_ok (mkData ∅ ∅ (load_pipeline_report fs)) Hok)
    as (m & Hrun & Hpatients & Hpersons & _ & _ & Hdb & _).
  exists m. unfold result_of. rewrite Hrun.
  split; [ reflexivity | ].
  split; [ exact Hpatients | ]. split; [ exact Hpersons | ].
  split; [ exact Hdb | ].
  intros Habsent. rewrite Habsent in Hrun.
  change (calculate_metrics empty_snapshot = (Return m, empty_snapshot))
    in Hrun.
  assert (Hdefault : calculate_metrics empty_snapshot =
                     (Return default_metrics, empty_snapshot))
    by reflexivity.
  congruence.
Qed.

Lemma missing_snapshot_returns_defaults_witness :
  (forall path, csv no_files path = NoFile) /\
  report_ok (load_pipeline_report no_files) = true /\
  exists m, main_metrics no_files = Return m /\ m = default_metrics.
Proof.
  split; [ reflexivity | ]. split; [ reflexivity | ].
  destruct (missing_snapshot_returns_defaults no_files
              (fun _ => eq_refl) eq_refl)
    as (m & Hrun & _ & _ & _ & Hdefault).
  exists m. split; [ exact Hrun | ]. apply Hdefault. reflexivity.
Defined.

(** * Further properties of the loader, the metrics and the pages *)

(** ** What [load_real_data] puts in the two dictionaries *)

Lemma table_names_synthea : NoDup (map table_name synthea_files).
Proof. apply (bool_decide_unpack _). vm_compute. exact I. Qed.

Lemma table_names_omop : NoDup (map table_name omop_files).
Proof. apply (bool_decide_unpack _). vm_compute. exact I. Qed.

Lemma load_file_lookup fs dir loaded file k :
  load_file fs dir loaded file !! k =
  if decide (table_name file = k)
  then match loaded_count (csv fs (path_in dir file)) with
       | Some v => Some v
       | None => loaded !! k
       end
  else loaded !! k.
Proof.
  unfold load_file, path_in.
  destruct (csv fs _); cbn [loaded_count];
    case_decide; subst; rewrite ?lookup_insert_eq, ?lookup_insert_ne by done;
    reflexivity.
Qed.

Lemma fold_load_other fs dir files loaded k :
  k ∉ map table_name files ->
  fold_left (load_file fs dir) files loaded !! k = loaded !! k.
Proof.
  revert loaded. induction files as [ | file rest IH]; intros loaded Hk.
  - reflexivity.
  - cbn [map] in Hk. apply not_elem_of_cons in Hk as [Hne Hrest].
    cbn [fold_left]. rewrite IH by exact Hrest.
    rewrite load_file_lookup. case_decide; congruence.
Qed.

Lemma fold_load_lookup fs dir files loaded file :
  NoDup (map table_name files) ->
  file ∈ files ->
  fold_left (load_file fs dir) files loaded !! table_name file =
  match loaded_count (csv fs (path_in dir file)) with
  | Some v => Some v
  | None => loaded !! table_name file
  end.
Proof.
  revert loaded. induction files as [ | first rest IH];
    intros loaded Hnodup Hin.
  - inversion Hin.
  - cbn [map] in Hnodup. apply NoDup_cons in Hnodup as [Hfresh Hnodup].
    cbn [fold_left]. apply elem_of_cons in Hin as [-> | Hin].
    + rewrite fold_load_other by exact Hfresh.
      rewrite load_file_lookup. case_decide; [ reflexivity | congruence ].
    + rewrite IH by assumption.
      rewrite load_file_lookup. case_decide as Hsame; [ | reflexivity ].
      exfalso. apply Hfresh. rewrite Hsame.
      apply list_elem_of_fmap. exists file. split; [ reflexivity | exact Hin ].
Qed.

Lemma load_counts_lookup fs dir files file :
  NoDup (map table_name files) ->
  file ∈ files ->
  load_counts fs dir files !! table_name file =
  loaded_count (csv fs (path_in dir file)).
Proof.
  intros Hnodup Hin. unfold load_counts.
  rewrite fold_load_lookup by assumption.
  destruct (loaded_count _); [ reflexivity | apply lookup_empty ].
Qed.

Lemma load_counts_dom fs dir files :
  dom (load_counts fs dir files) =
  list_to_set (map table_name (found fs dir files)).
Proof.
  unfold load_counts.
  assert (Hgen : forall loaded : gmap string Z,
            dom (fold_left (load_file fs dir) files loaded) =
            dom loaded ∪ list_to_set (map table_name (found fs dir files))).
  { induction files as [ | file rest IH]; intros loaded.
    - cbn. set_solver.
    - cbn [fold_left]. rewrite IH. unfold found at 2.
      rewrite filter_cons. fold (found fs dir rest).
      unfold load_file, on_disk, path_in.
      destruct (csv fs _); case_decide; try discriminate; try congruence;
        cbn [map list_to_set]; rewrite ?dom_insert_L; set_solver. }
  rewrite Hgen, dom_empty_L. set_solver.
Qed.

Lemma load_counts_size fs dir files :
  NoDup (map table_name files) ->
  size (load_counts fs dir files) = length (found fs dir files).
Proof.
  intros Hnodup.
  rewrite <- size_dom, load_counts_dom, size_list_to_set.
  - apply length_map.
  - unfold found. clear -Hnodup.
    induction files as [ | file rest IH]; [ constructor | ].
    cbn [map] in Hnodup. apply NoDup_cons in Hnodup as [Hfresh Hnodup].
    rewrite filter_cons. case_decide; [ | auto ].
    cbn [map]. apply NoDup_cons. split; [ | auto ].
    intros Hin. apply Hfresh.
    apply list_elem_of_fmap in Hin as (other & Heq & Hother).
    apply list_elem_of_filter in Hother as [_ Hother].
    apply list_elem_of_fmap. eauto.
Qed.

(** X1: for each expected file, the loader stores under the file's table
    name nothing when the file does not exist, 0 when it cannot be read,
    and its number of rows otherwise; this holds for the Synthea and for
    the OMOP directory. *)
Theorem load_real_data_lookup (fs : filesystem) (file : string) :
  (file ∈ synthea_files ->
   synthea (load_real_data fs) !! table_name file =
   loaded_count (csv fs (path_in "data/synthea" file))) /\
  (file ∈ omop_files ->
   omop (load_real_data fs) !! table_name file =
   loaded_count (csv fs (path_in "data/omop" file))).
Proof.
  split; intros Hin; cbn [load_real_data synthea omop].
  - apply load_counts_lookup; [ apply table_names_synthea | exact Hin ].
  - apply load_counts_lookup; [ apply table_names_omop | exact Hin ].
Qed.

Lemma load_real_data_lookup_witness :
  synthea (load_real_data small_disk) !! "patients" = Some 30 /\
  omop (load_real_data small_disk) !! "person" = Some 0.
Proof.
  destruct (load_real_data_lookup small_disk "patients.csv") as [Hs _].
  destruct (load_real_data_lookup small_disk "person.csv") as [_ Ho].
  split.
  - apply Hs. apply (bool_decide_unpack _). reflexivity.
  - apply Ho. apply (bool_decide_unpack _). reflexivity.
Defined.

(** X2: the tables the loader returns are exactly the tables of the
    expected files that exist on disk, readable or not; so the number of
    entries of each dictionary is the number of those files. *)
Theorem load_real_data_tables (fs : filesystem) :
  dom (synthea (load_real_data fs)) =
    list_to_set (map table_name (found fs "data/synthea" synthea_files)) /\
  dom (omop (load_real_data fs)) =
    list_to_set (map table_name (found fs "data/omop" omop_files)) /\
  size (synthea (load_real_data fs)) =
    length (found fs "data/synthea" synthea_files) /\
  size (omop (load_real_data fs)) =
    length (found fs "data/omop" omop_files).
Proof.
  cbn [load_real_data synthea omop].
  rewrite !load_counts_dom.
  rewrite (load_counts_size _ _ _ table_names_synthea).
  rewrite (load_counts_size _ _ _ table_names_omop).
  auto.
Qed.

Lemma load_counts_nonneg fs dir files k v :
  load_counts fs dir files !! k = Some v -> 0 <= v.
Proof.
  unfold load_counts.
  assert (Hgen : forall loaded : gmap string Z,
            (forall v', loaded !! k = Some v' -> 0 <= v') ->
            fold_left (load_file fs dir) files loaded !! k = Some v ->
            0 <= v).
  { induction files as [ | file rest IH]; intros loaded Hloaded.
    - apply Hloaded.
    - cbn [fold_left]. apply IH. intros v'.
      rewrite load_file_lookup. case_decide; [ | apply Hloaded ].
      destruct (csv fs _); cbn [loaded_count];
        [ apply Hloaded | intros [= <-]; lia | intros [= <-]; lia ]. }
  apply Hgen. intros v'. rewrite lookup_empty. discriminate.
Qed.

(** X3: no count the loader returns is negative, in either dictionary. *)
Theorem load_real_data_nonneg (fs : filesystem) (k : string) (v : Z) :
  synthea (load_real_data fs) !! k = Some v \/
  omop (load_real_data fs) !! k = Some v ->
  0 <= v.
Proof.
  cbn [load_real_data synthea omop].
  intros [H | H]; exact (load_counts_nonneg _ _ _ _ _ H).
Qed.

Lemma load_real_data_nonneg_witness :
  synthea (load_real_data small_disk) !! "patients" = Some 30 /\ 0 <= 30.
Proof.
  split; [ reflexivity | ].
  apply (load_real_data_nonneg small_disk "patients" 30). left. reflexivity.
Defined.

(** X4: a file that cannot be read is loaded exactly as a file with no
    rows: replacing every unreadable file by an empty table changes
    nothing in what the loader returns. *)
Theorem load_real_data_unreadable_as_empty (fs : filesystem) :
  load_real_data (unreadable_as_empty fs) = load_real_data fs.
Proof.
  assert (Hfile : forall dir loaded file,
            load_file (unreadable_as_empty fs) dir loaded file =
            load_file fs dir loaded file).
  { intros dir loaded file. unfold load_file, unreadable_as_empty.
    cbn [csv]. destruct (csv fs _); reflexivity. }
  assert (Hcounts : forall dir files,
            load_counts (unreadable_as_empty fs) dir files =
            load_counts fs dir files).
  { intros dir files. unfold load_counts. generalize (∅ : gmap string Z).
    induction files as [ | file rest IH]; intros loaded; cbn [fold_left].
    - reflexivity.
    - rewrite Hfile. apply IH. }
  unfold load_real_data. rewrite !Hcounts. reflexivity.
Qed.

(** X5: the report is the document of the last file the glob lists, the
    earlier ones being ignored; when that last file cannot be opened or
    parsed the report is empty, even if an earlier file is fine; and it is
    empty when there is no such file or no data directory. *)
Theorem load_pipeline_report_last
  (c : string -> csv_file) (earlier : list (option json)) (report : json) :
  load_pipeline_report (mkFs c true (earlier ++ [Some report])) = report /\
  load_pipeline_report (mkFs c true (earlier ++ [None])) = JObj [] /\
  load_pipeline_report (mkFs c true []) = JObj [] /\
  load_pipeline_report (mkFs c false (earlier ++ [Some report])) = JObj [].
Proof.
  unfold load_pipeline_report. cbn [data_dir_exists pipeline_files].
  rewrite !last_snoc. auto.
Qed.

(** ** More on [calculate_metrics] *)

Lemma stmts_without_report tp op d :
  Py.truthy (pipeline_report d) = false ->
  success_rate_stmt tp op d =
    (Return (if tp >? 0
             then JNum (Py.min (inject_Z op / inject_Z tp) 1)
             else JNum 0.95), d) /\
  processing_time_stmt d = (Return 180%Q, d) /\
  concept_rate_stmt d = (Return 0.92%Q, d).
Proof.
  intros Hfalsy.
  unfold success_rate_stmt, processing_time_stmt, concept_rate_stmt, bind.
  rewrite !report_has_eq, Hfalsy. unfold ret.
  destruct (tp >? 0); auto.
Qed.

Lemma calculate_metrics_raises_early d e :
  success_rate_stmt (dict_get (synthea d) "patients" 0)
                    (dict_get (omop d) "person" 0) d = (Raise e, d) ->
  calculate_metrics d = (Raise e, d).
Proof.
  intros Hsr.
  cbv beta iota delta [calculate_metrics bind synthea_get omop_get gets].
  rewrite Hsr. reflexivity.
Qed.



(** X7: a report that is empty or false in Python's sense ([null], [false],
    0, an empty string, list or dictionary) is treated as no report: the
    result is the one computed with the empty dictionary. *)
Theorem falsy_report_as_absent
  (s o : gmap string Z) (report : json) :
  Py.truthy report = false ->
  result_of (mkData s o report) = result_of (mkData s o (JObj [])).
Proof.
  intros Hfalsy. unfold result_of.
  destruct (stmts_without_report
              (dict_get s "patients" 0) (dict_get o "person" 0)
              (mkData s o report) Hfalsy) as (Hsr & Hpt & Hcr).
  destruct (stmts_without_report
              (dict_get s "patients" 0) (dict_get o "person" 0)
              (mkData s o (JObj [])) eq_refl) as (Hsr' & Hpt' & Hcr').
  rewrite (calculate_metrics_from_stmts (mkData s o report) _ _ _
             Hsr Hpt Hcr).
  rewrite (calculate_metrics_from_stmts (mkData s o (JObj [])) _ _ _
             Hsr' Hpt' Hcr').
  reflexivity.
Qed.

Lemma falsy_report_as_absent_witness :
  Py.truthy JNull = false /\
  result_of (mkData {[ "patients" := 30 ]} {[ "person" := 28 ]} JNull) =
  result_of scenario_B.
Proof.
  split; [ reflexivity | ].
  exact (falsy_report_as_absent _ _ JNull eq_refl).
Defined.

(** X8: when the report has [validation_results] and its value is not an
    object, or it is an object whose [summary] is not an object, the call
    raises [AttributeError], whatever the counts and the rest of the
    report. *)
Theorem non_object_validation_raises
  (d : Data) (sections : list (string * json)) (v : json) :
  pipeline_report d = JObj sections ->
  Py.lookup "validation_results" sections = Some v ->
  (Py.is_dict v = false \/
   exists fields sm, v = JObj fields /\
     Py.lookup "summary" fields = Some sm /\ Py.is_dict sm = false) ->
  result_of d = Raise AttributeError.
Proof.
  intros Hreport Hvr Hbad. unfold result_of.
  rewrite (calculate_metrics_raises_early d AttributeError); [ reflexivity | ].
  unfold success_rate_stmt, bind. rewrite report_has_eq.
  unfold gets, lift.
  destruct d as [sy om r]. cbn [pipeline_report] in Hreport |- *. subst r.
  destruct sections as [ | entry rest ]; [ discriminate Hvr | ].
  cbn [Py.truthy Py.contains]. rewrite Hvr.
  rewrite bool_decide_eq_true_2 by eauto.
  cbn [pipeline_report Py.getitem]. rewrite Hvr.
  destruct Hbad as [Hv | (fields & sm & -> & Hsm & Hbad)].
  - destruct v; try discriminate Hv; reflexivity.
  - cbn [Py.get]. rewrite Hsm. cbn [default from_option id].
    destruct sm; try discriminate Hbad; reflexivity.
Qed.

Lemma non_object_validation_raises_witness :
  result_of list_validation = Raise AttributeError.
Proof.
  apply (non_object_validation_raises list_validation
           [("validation_results", JArr [JStr "passed"])]
           (JArr [JStr "passed"]));
    [ reflexivity | reflexivity | left; reflexivity ].
Defined.

Lemma Qsum_bounds qs :
  Forall (fun q => 0 <= q <= 1)%Q qs ->
  (0 <= Qsum qs <= inject_Z (Z.of_nat (length qs)))%Q.
Proof.
  induction 1 as [ | q rest [Hlo Hhi] _ [IHlo IHhi]].
  - split; apply Qle_refl.
  - rewrite Qsum_cons. cbn [length].
    rewrite Nat2Z.inj_succ, <- Z.add_1_l, inject_Z_plus. split.
    + rewrite <- (Qplus_0_l 0). apply Qplus_le_compat; assumption.
    + apply Qplus_le_compat; assumption.
Qed.

Lemma mean_bounds qs :
  qs <> [] ->
  Forall (fun q => 0 <= q <= 1)%Q qs ->
  (0 <= mean qs <= 1)%Q.
Proof.
  intros Hne Hall. destruct (Qsum_bounds qs Hall) as [Hlo Hhi].
  assert (Hlen : (0 < inject_Z (Z.of_nat (length qs)))%Q).
  { change 0%Q with (inject_Z 0). rewrite <- Zlt_Qlt.
    destruct qs; [ congruence | cbn [length]; lia ]. }
  unfold mean. split.
  - apply Qle_shift_div_l; [ exact Hlen | ]. rewrite Qmult_0_l. exact Hlo.
  - apply Qle_shift_div_r; [ exact Hlen | ]. rewrite Qmult_1_l. exact Hhi.
Qed.

(** X9: on a report of the expected shape, when every [mapped_rate] that
    is present lies between 0 and 1, so does the concept rate returned
    (their mean, or the default 0.92 when there is none). *)
Theorem concept_rate_in_unit_interval (d : Data) :
  report_ok (pipeline_report d) = true ->
  Forall (fun q => 0 <= q <= 1)%Q (mapped_rates (pipeline_report d)) ->
  exists m, result_of d = Return m /\
    (0 <= concept_rate m <= 1)%Q.
Proof.
  intros Hok Hall.
  destruct (calculate_metrics_ok d Hok)
    as (m & Hrun & _ & _ & _ & _ & _ & Hmean & Hdflt).
  exists m. split; [ unfold result_of; rewrite Hrun; reflexivity | ].
  destruct (mapped_rates (pipeline_report d)) as [ | q qs ] eqn:Hrates.
  - rewrite (Hdflt eq_refl). split; discriminate.
  - rewrite Hmean by discriminate. apply mean_bounds; [ discriminate | ].
    exact Hall.
Qed.

Lemma concept_rate_in_unit_interval_witness :
  report_ok (pipeline_report scenario_D) = true /\
  exists m, result_of scenario_D = Return m /\
    (0 <= concept_rate m <= 1)%Q.
Proof.
  split; [ reflexivity | ].
  apply (concept_rate_in_unit_interval scenario_D eq_refl).
  repeat constructor; discriminate.
Defined.

(** X10: from disk to flag: with a report of the expected shape, the
    metrics computed from what the loader returns have [db_connected]
    true exactly when at least one of the expected OMOP files exists on
    disk, be it unreadable or without rows. *)
Theorem db_connected_iff_file_found (fs : filesystem) :
  report_ok (load_pipeline_report fs) = true ->
  exists m, main_metrics fs = Return m /\
    (db_connected m = true <-> found fs "data/omop" omop_files <> []).
Proof.
  intros Hok. unfold main_metrics.
  destruct (calculate_metrics_ok (load_real_data fs) Hok)
    as (m & Hrun & _ & _ & _ & _ & Hdb & _).
  exists m. split; [ unfold result_of; rewrite Hrun; reflexivity | ].
  rewrite Hdb, bool_decide_eq_true. cbn [load_real_data omop].
  rewrite (load_counts_size _ _ _ table_names_omop).
  destruct (found fs "data/omop" omop_files); cbn [length].
  - split; [ lia | congruence ].
  - split; [ discriminate | lia ].
Qed.

Lemma db_connected_iff_file_found_witness :
  report_ok (load_pipeline_report small_disk) = true /\
  exists m, main_metrics small_disk = Return m /\ db_connected m = true.
Proof.
  split; [ reflexivity | ].
  destruct (db_connected_iff_file_found small_disk eq_refl)
    as (m & Hrun & Hiff).
  exists m. split; [ exact Hrun | ].
  apply Hiff. discriminate.
Defined.


(** ** More on the comparison table *)

Ltac settle_row :=
  repeat match goal with
         | H : (_ =? _)%Z = true |- _ => apply Z.eqb_eq in H
         | H : (_ =? _)%Z = false |- _ => apply Z.eqb_neq in H
         | H : (_ >? _) = true |- _ => apply Z.gtb_lt in H
         | H : (_ >? _) = false |- _ =>
             rewrite Z.gtb_ltb in H; apply Z.ltb_ge in H
         end;
  first [ reflexivity | lia | congruence
        | match goal with H : classify _ = _ |- _ => discriminate H end ].

(** X11: how every row of the table is classified.  A one-to-one row is
    Exact exactly when its two counts are equal and Discrepant otherwise;
    a one-to-many row is Transformed exactly when the sum of its target
    counts is positive, whatever its source count, and Discrepant
    otherwise; the allergies row is Transformed exactly when its source
    count is positive, whatever the target holds, and NoData otherwise. *)
Theorem row_classification (d : Data) (i : nat) (c : correspondence) :
  correspondences !! i = Some c ->
  exists r, comparison_data d !! i = Some r /\
    (is_one_to_one c = true ->
     (class_of r = Some Exact <-> source_count d c = target_count d c) /\
     (class_of r = Some Discrepant <->
      source_count d c <> target_count d c)) /\
    (is_one_to_many c = true ->
     (class_of r = Some Transformed <-> 0 < target_count d c) /\
     (class_of r = Some Discrepant <-> target_count d c <= 0)) /\
    (is_included c = true ->
     (class_of r = Some Transformed <-> 0 < source_count d c) /\
     (class_of r = Some NoData <-> source_count d c <= 0)).
Proof.
  intros Hc. each_row Hc;
    (eexists; split; [ reflexivity | ]);
    unfold source_count, target_count, class_of;
    cbn [row_1_1 row_split Integridad source_of targets_of map foldr
         is_included is_one_to_one is_one_to_many];
    rewrite ?Z.add_0_r;
    (split; [ | split ]); intros Hkind; try discriminate Hkind;
    row_condition; (split; split; intros ?); settle_row.
Qed.

Lemma row_classification_witness :
  exists r, comparison_data scenario_B !! 0%nat = Some r /\
    class_of r = Some Discrepant.
Proof.
  destruct (row_classification scenario_B 0 (OneToOne "patients" "person")
              eq_refl) as (r & Hrow & Hone & _).
  exists r. split; [ exact Hrow | ].
  apply (Hone eq_refl). discriminate.
Defined.

Lemma row_1_1_exact d ts ks tho ko :
  class_of (row_1_1 d ts ks tho ko) = Some Exact <->
  dict_get (synthea d) ks 0 = dict_get (omop d) ko 0.
Proof.
  unfold class_of. cbn [row_1_1 Integridad].
  row_condition; split; intros ?; settle_row.
Qed.

(** X12: the efficiency under the chart is "N/A" exactly when the five
    source counts of the chart sum to nothing; otherwise it is 100 times
    the ratio of the two totals, which is not capped: it is at most 100
    exactly when the target total does not exceed the source total. *)
Theorem eficiencia_range (d : Data) :
  (eficiencia d = NotAvailable <-> sum_ints (synthea_counts d) <= 0) /\
  (forall e, eficiencia d = Efficiency e ->
     (e == inject_Z (sum_ints (omop_counts d)) /
           inject_Z (sum_ints (synthea_counts d)) * 100)%Q /\
     ((e <= 100)%Q <->
      sum_ints (omop_counts d) <= sum_ints (synthea_counts d))).
Proof.
  unfold eficiencia.
  destruct (sum_ints (synthea_counts d) >? 0) eqn:Hgt.
  - apply Z.gtb_lt in Hgt. split.
    + split; [ discriminate | lia ].
    + intros e [= <-]. split; [ reflexivity | ].
      assert (Hpos : (0 < inject_Z (sum_ints (synthea_counts d)))%Q).
      { change 0%Q with (inject_Z 0). rewrite <- Zlt_Qlt. exact Hgt. }
      rewrite Zle_Qle.
      set (a := inject_Z (sum_ints (omop_counts d))) in *.
      set (b := inject_Z (sum_ints (synthea_counts d))) in *.
      assert (Hb : ~ (b == 0)%Q).
      { intros H0. rewrite H0 in Hpos. discriminate. }
      assert (Hr : (a / b * b == a)%Q) by (field; exact Hb).
      split; intros Hle.
      * assert (H1 : (a / b <= 1)%Q).
        { apply (Qmult_le_r _ _ 100); [ reflexivity | ].
          rewrite Qmult_1_l. exact Hle. }
        rewrite <- Hr. apply Qle_trans with (1 * b)%Q.
        -- apply Qmult_le_compat_r; [ exact H1 | ].
           apply Qlt_le_weak. exact Hpos.
        -- rewrite Qmult_1_l. apply Qle_refl.
      * apply Qle_trans with (1 * 100)%Q; [ | vm_compute; discriminate ].
        apply Qmult_le_compat_r; [ | discriminate ].
        apply Qle_shift_div_r; [ exact Hpos | ].
        rewrite Qmult_1_l. exact Hle.
  - rewrite Z.gtb_ltb in Hgt. apply Z.ltb_ge in Hgt. split.
    + split; [ intros _; exact Hgt | reflexivity ].
    + intros e [=].
Qed.

(** X13: when the five one-to-one rows that the chart draws are all
    Exact and their source counts sum to something, the efficiency shown
    is 100. *)
Theorem eficiencia_of_exact_rows (d : Data) :
  0 < sum_ints (synthea_counts d) ->
  (forall i r, (i < 5)%nat -> comparison_data d !! i = Some r ->
               class_of r = Some Exact) ->
  exists e, eficiencia d = Efficiency e /\ (e == 100)%Q.
Proof.
  intros Hpos Hexact.
  assert (Hsame : omop_counts d = synthea_counts d).
  { unfold omop_counts, synthea_counts.
    pose proof (Hexact 0%nat _ ltac:(repeat constructor) eq_refl) as H0.
    pose proof (Hexact 1%nat _ ltac:(repeat constructor) eq_refl) as H1.
    pose proof (Hexact 2%nat _ ltac:(repeat constructor) eq_refl) as H2.
    pose proof (Hexact 3%nat _ ltac:(repeat constructor) eq_refl) as H3.
    pose proof (Hexact 4%nat _ ltac:(repeat constructor) eq_refl) as H4.
    apply row_1_1_exact in H0, H1, H2, H3, H4.
    rewrite H0, H1, H2, H3, H4. reflexivity. }
  unfold eficiencia. rewrite Hsame.
  apply Z.gtb_lt in Hpos. rewrite Hpos. eexists. split; [ reflexivity | ].
  apply Z.gtb_lt in Hpos.
  unfold Qdiv. rewrite Qmult_inv_r; [ reflexivity | ].
  intros H0. change 0%Q with (inject_Z 0) in H0.
  rewrite inject_Z_injective in H0. lia.
Qed.

Lemma eficiencia_of_exact_rows_witness :
  exists e, eficiencia scenario_A = Efficiency e /\ (e == 100)%Q.
Proof.
  apply (eficiencia_of_exact_rows scenario_A); [ reflexivity | ].
  intros i r Hi Hrow.
  do 5 (destruct i as [ | i]; [ injection Hrow as <-; reflexivity | ]).
  lia.
Defined.

(** ** The pages on top of the loader and the metrics *)

Lemma loaded_get fs dir files file :
  NoDup (map table_name files) ->
  file ∈ files ->
  dict_get (load_counts fs dir files) (table_name file) 0 =
  rows_on_disk fs dir file.
Proof.
  intros Hnodup Hin. unfold dict_get, rows_on_disk.
  rewrite load_counts_lookup by assumption. reflexivity.
Qed.

Lemma rows_on_disk_nonneg fs dir file : 0 <= rows_on_disk fs dir file.
Proof.
  unfold rows_on_disk. destruct (csv fs _); cbn; lia.
Qed.

Lemma loaded_patients fs :
  patients (load_real_data fs) =
  rows_on_disk fs "data/synthea" "patients.csv".
Proof.
  apply (loaded_get fs "data/synthea" synthea_files "patients.csv").
  - apply table_names_synthea.
  - apply (bool_decide_unpack _). reflexivity.
Qed.

Lemma loaded_persons fs :
  persons (load_real_data fs) = rows_on_disk fs "data/omop" "person.csv".
Proof.
  apply (loaded_get fs "data/omop" omop_files "person.csv").
  - apply table_names_omop.
  - apply (bool_decide_unpack _). reflexivity.
Qed.

(** X14: what the sidebar says, from what is on disk (with a report of
    the expected shape).  It shows the error "No se encontraron datos"
    when the patients file is missing, unreadable or without rows,
    whatever else was loaded; the warning "Solo datos Synthea" when there
    are patients and the person file gives no rows; and otherwise the
    three successes, which count the expected files found in each
    directory. *)
Theorem estado_del_sistema_from_disk (fs : filesystem) :
  report_ok (load_pipeline_report fs) = true ->
  exists m, main_metrics fs = Return m /\
    (rows_on_disk fs "data/synthea" "patients.csv" = 0 ->
     estado_del_sistema (load_real_data fs) m =
     [ st_error "❌ No se encontraron datos" ]) /\
    (0 < rows_on_disk fs "data/synthea" "patients.csv" ->
     rows_on_disk fs "data/omop" "person.csv" = 0 ->
     estado_del_sistema (load_real_data fs) m =
     [ st_warning "⚠️ Solo datos Synthea" ]) /\
    (0 < rows_on_disk fs "data/synthea" "patients.csv" ->
     0 < rows_on_disk fs "data/omop" "person.csv" ->
     estado_del_sistema (load_real_data fs) m =
     [ st_success "✅ Datos reales cargados";
       st_success
         (String.append "✅ "
            (String.append
               (Py.str (Z.of_nat
                  (length (found fs "data/synthea" synthea_files))))
               " archivos Synthea"));
       st_success
         (String.append "✅ "
            (String.append
               (Py.str (Z.of_nat (length (found fs "data/omop" omop_files))))
               " tablas OMOP")) ]).
Proof.
  intros Hok. unfold main_metrics.
  destruct (calculate_metrics_ok (load_real_data fs) Hok)
    as (m & Hrun & Hpatients & Hpersons & _).
  exists m. split; [ unfold result_of; rewrite Hrun; reflexivity | ].
  rewrite loaded_patients in Hpatients. rewrite loaded_persons in Hpersons.
  unfold estado_del_sistema. rewrite Hpatients, Hpersons.
  cbn [load_real_data synthea omop].
  rewrite (load_counts_size _ _ _ table_names_synthea).
  rewrite (load_counts_size _ _ _ table_names_omop).
  repeat split.
  - intros ->. reflexivity.
  - intros Hpos ->. apply Z.gtb_lt in Hpos. rewrite Hpos. reflexivity.
  - intros Hpos Hpos'. apply Z.gtb_lt in Hpos, Hpos'.
    rewrite Hpos, Hpos'. reflexivity.
Qed.

Lemma estado_del_sistema_from_disk_witness :
  report_ok (load_pipeline_report small_disk) = true /\
  exists m, main_metrics small_disk = Return m /\
    estado_del_sistema (load_real_data small_disk) m =
    [ st_warning "⚠️ Solo datos Synthea" ].
Proof.
  split; [ reflexivity | ].
  destruct (estado_del_sistema_from_disk small_disk eq_refl)
    as (m & Hrun & _ & Hsolo & _).
  exists m. split; [ exact Hrun | ].
  apply Hsolo; reflexivity.
Defined.





Lemma py_int_floor x : (0 <= x)%Q -> py_int x = Qfloor x.
Proof.
  intros Hx. unfold py_int. destruct x as [n den]. cbn [Qnum Qden Qfloor].
  apply Z.quot_div_nonneg; [ | lia ].
  unfold Qle in Hx. cbn in Hx. lia.
Qed.

Lemma py_int_inject z : py_int (inject_Z z) = z.
Proof. unfold py_int. cbn. apply Z.quot_1_r. Qed.

Lemma Qfloor_unique x n :
  (inject_Z n <= x)%Q -> (x < inject_Z (n + 1))%Q -> Qfloor x = n.
Proof.
  intros Hlo Hhi. apply Z.le_antisymm.
  - assert (H : (inject_Z (Qfloor x) < inject_Z (n + 1))%Q).
    { eapply Qle_lt_trans; [ apply Qfloor_le | exact Hhi ]. }
    rewrite <- Zlt_Qlt in H. lia.
  - rewrite <- (Qfloor_Z n). apply Qfloor_resp_le. exact Hlo.
Qed.

(** X17: the time shown is the whole number of seconds of the processing
    time, split in minutes and seconds: the seconds are always between 0
    and 59, and 60 times the minutes plus the seconds is the processing
    time rounded down. *)
Theorem time_formatted_minutes_seconds (t : Q) :
  exists mm ss,
    time_formatted t =
      String.append (Py.str mm)
        (String.append "m " (String.append (Py.str ss) "s")) /\
    0 <= ss < 60 /\
    60 * mm + ss = Qfloor t.
Proof.
  exists (py_int (py_floordiv t 60)), (py_int (py_mod t 60)).
  split; [ reflexivity | ].
  unfold py_mod, py_floordiv. rewrite py_int_inject.
  set (z := Qfloor (t / 60)).
  assert (Hlo : (inject_Z z <= t / 60)%Q) by apply Qfloor_le.
  assert (Hhi : (t / 60 < inject_Z (z + 1))%Q) by apply Qlt_floor.
  rewrite inject_Z_plus in Hhi. change (inject_Z 1) with 1%Q in Hhi.
  assert (Ht : (t == t / 60 * 60)%Q) by (field; discriminate).
  assert (Hlo' : (60 * inject_Z z <= t)%Q) by (rewrite Ht; lra).
  assert (Hhi' : (t < 60 * inject_Z z + 60)%Q) by (rewrite Ht; lra).
  set (r := (t - 60 * inject_Z z)%Q).
  assert (Hr : (r == t - 60 * inject_Z z)%Q) by reflexivity.
  clearbody r. clear Ht Hlo Hhi.
  assert (Hr0 : (0 <= r)%Q) by lra.
  assert (Hr60 : (r < 60)%Q) by lra.
  rewrite (py_int_floor r Hr0).
  pose proof (Qfloor_le r) as Hfl. pose proof (Qlt_floor r) as Hfu.
  rewrite inject_Z_plus in Hfu. change (inject_Z 1) with 1%Q in Hfu.
  assert (Hss : 0 <= Qfloor r < 60).
  { split.
    - change 0 with (Qfloor 0). apply Qfloor_resp_le. exact Hr0.
    - rewrite Zlt_Qlt. eapply Qle_lt_trans; [ exact Hfl | exact Hr60 ]. }
  split; [ exact Hss | ].
  symmetry. apply Qfloor_unique.
  - rewrite inject_Z_plus, inject_Z_mult.
    change (inject_Z 60) with 60%Q. lra.
  - rewrite !inject_Z_plus, inject_Z_mult.
    change (inject_Z 60) with 60%Q. change (inject_Z 1) with 1%Q. lra.
Qed.

Example time_formatted_default : time_formatted 180 = "3m 0s".
Proof. reflexivity. Qed.

Example time_formatted_fraction : time_formatted 42.5 = "0m 42s".
Proof. reflexivity. Qed.

(** X18: a recorded rate that is not a number comes back unchanged from
    [calculate_metrics] and makes [main] fail afterwards.  On a report of
    the expected shape the call returns the recorded rate as it is, and
    the test [success_rate >= 0.9] raises [TypeError] exactly when the
    report records an [overall_success_rate] that is neither a number nor
    a boolean. *)
Theorem success_test_raises_iff (d : Data) :
  report_ok (pipeline_report d) = true ->
  exists m, result_of d = Return m /\
    (forall v, reported_success_rate (pipeline_report d) = Some v ->
               success_rate m = v) /\
    (success_test m = Raise TypeError <->
     exists v, reported_success_rate (pipeline_report d) = Some v /\
               comparable v = false).
Proof.
  intros Hok.
  destruct (calculate_metrics_ok d Hok) as (m & Hrun & _ & _ & Hsr & _).
  exists m. split; [ unfold result_of; rewrite Hrun; reflexivity | ].
  unfold success_test. rewrite Hsr. clear Hsr Hrun.
  destruct (at_path ["validation_results"] (pipeline_report d)) eqn:Hvr.
  - destruct (reported_success_rate (pipeline_report d)) as [v | ];
      cbn [default from_option id].
    + split; [ intros v' [= <-]; reflexivity | ]. split.
      * intros Hraise. exists v. split; [ reflexivity | ].
        destruct v; try reflexivity; discriminate Hraise.
      * intros (v' & [= <-] & Hv). destruct v; try reflexivity;
          discriminate Hv.
    + split; [ intros v [=] | ].
      split; [ discriminate | intros (v & [=] & _) ].
  - rewrite (no_validation_no_rate _ Hvr).
    split; [ intros v [=] | ].
    split; [ | intros (v & [=] & _) ].
    destruct (patients d >? 0); discriminate.
Qed.

Lemma success_test_raises_iff_witness :
  report_ok (pipeline_report string_rate) = true /\
  exists m, result_of string_rate = Return m /\
    success_rate m = JStr "95%" /\ success_test m = Raise TypeError.
Proof.
  split; [ reflexivity | ].
  destruct (success_test_raises_iff string_rate eq_refl)
    as (m & Hrun & Hsame & Hiff).
  exists m. split; [ exact Hrun | ].
  split; [ apply Hsame; reflexivity | ].
  apply Hiff. exists (JStr "95%"). split; reflexivity.
Defined.

(** ** The tables of the mapping analysis *)

Example fmt_0d_examples :
  fmt_0d 3 7 = "007" /\ fmt_0d 3 (-7) = "-07" /\
  fmt_0d 3 1234 = "1234" /\ fmt_0d 2 5 = "05".
Proof. repeat split; reflexivity. Qed.

Example slice_to_examples :
  slice_to [1; 2; 3] (-1) = [1; 2] /\ slice_to [1; 2; 3] 5 = [1; 2; 3] /\
  slice_to [1; 2; 3] (-7) = [] /\ slice_to [1; 2; 3] 0 = [].
Proof. repeat split; reflexivity. Qed.

(** with no conditions file the tab works on the default 54: 29 records
    are announced as unmapped, and the ten codes are listed *)
Example conditions_tab_default :
  let t := mkTab "conditions" 54 0.467 condition_codes condition_row in
  tab_unmapped empty_snapshot t = 29 /\
  length (tab_rows empty_snapshot t) = 10%nat /\
  hd_error (tab_rows empty_snapshot t) =
  Some [ ("ID", "COND_001"); ("Código ICD-10", "K29.9");
         ("Descripción", "Gastritis no especificada");
         ("Paciente", "PAT_004"); ("Fecha", "2024-02-02");
         ("Estado", "🔴 Sin SNOMED"); ("Sugerencia", "SNOMED: 4247120");
         ("Prioridad", "🔥 ALTA") ].
Proof. repeat split; reflexivity. Qed.

Ltac in_list :=
  repeat first [ apply elem_of_cons; left; reflexivity
               | apply elem_of_cons; right ].

Lemma tab_info_fails d t :
  tab_info d t = Fails ZeroDivisionError <-> tab_total d t = 0.
Proof.
  unfold tab_info. destruct (tab_total d t =? 0)%Z eqn:Hz.
  - apply Z.eqb_eq in Hz. split; [ intros _; exact Hz | reflexivity ].
  - apply Z.eqb_neq in Hz. split; [ discriminate | contradiction ].
Qed.

Lemma render_tabs_fails d tabs :
  render_tabs d tabs = Fails ZeroDivisionError <->
  exists t, t ∈ tabs /\ tab_total d t = 0.
Proof.
  induction tabs as [ | t rest IH]; cbn [render_tabs].
  - split; [ discriminate | intros (t & Hin & _); inversion Hin ].
  - destruct (tab_info d t) as [info | [] ] eqn:Hinfo.
    + assert (Hne : tab_total d t <> 0).
      { intros H0. apply tab_info_fails in H0. congruence. }
      destruct (render_tabs d rest) as [others | [] ].
      * split; [ discriminate | ].
        intros (t' & Hin & H0). apply elem_of_cons in Hin as [-> | Hin].
        -- contradiction.
        -- assert (Hf : @Shown (list (list tab_row * (Z * Z * Q))) others =
                         Fails ZeroDivisionError)
             by (apply IH; eauto).
           discriminate Hf.
      * split; [ intros _ | reflexivity ].
        destruct (proj1 IH eq_refl) as (t' & Hin & H0).
        exists t'. split; [ apply elem_of_cons; right; exact Hin | exact H0 ].
    + split; [ intros _ | reflexivity ].
      exists t. split; [ apply elem_of_cons; left; reflexivity | ].
      apply tab_info_fails. exact Hinfo.
Qed.

Lemma tab_total_zero d t :
  tab_default t <> 0 ->
  (tab_total d t = 0 <-> synthea d !! tab_key t = Some 0).
Proof.
  intros Hdflt. unfold tab_total, dict_get.
  destruct (synthea d !! tab_key t) as [v | ]; cbn.
  - split; [ intros ->; reflexivity | intros [= ->]; reflexivity ].
  - split; [ contradiction | discriminate ].
Qed.

Lemma mapping_tabs_defaults t : t ∈ mapping_tabs -> tab_default t <> 0.
Proof.
  intros Hin. unfold mapping_tabs in Hin.
  repeat (apply elem_of_cons in Hin as [-> | Hin]; [ discriminate | ]).
  inversion Hin.
Qed.

Lemma render_tabs_fails_iff_aux d :
  render_tabs d mapping_tabs = Fails ZeroDivisionError <->
  exists t, t ∈ mapping_tabs /\ synthea d !! tab_key t = Some 0.
Proof.
  rewrite render_tabs_fails. split; intros (t & Hin & H0); exists t;
    (split; [ exact Hin | ]);
    apply (tab_total_zero d t (mapping_tabs_defaults t Hin)); exact H0.
Qed.

(** X19: the mapping analysis ends with [ZeroDivisionError] exactly when
    one of the four counts it reads (conditions, medications, procedures,
    observations) is present in the source counts with the value 0; a
    count that is missing is replaced by a default and does not fail. *)
Theorem render_tabs_fails_iff (d : Data) :
  render_tabs d mapping_tabs = Fails ZeroDivisionError <->
  exists t, t ∈ mapping_tabs /\ synthea d !! tab_key t = Some 0.
Proof. exact (render_tabs_fails_iff_aux d). Qed.

(** X20: from disk to page: on what the loader returns, the mapping
    analysis ends with [ZeroDivisionError] exactly when one of the files
    conditions.csv, medications.csv, procedures.csv and observations.csv
    exists but cannot be read or has no rows; when such a file is missing
    the page is shown, on the default count. *)
Theorem render_tabs_from_disk (fs : filesystem) :
  render_tabs (load_real_data fs) mapping_tabs = Fails ZeroDivisionError <->
  exists file,
    file ∈ [ "conditions.csv"; "medications.csv";
             "procedures.csv"; "observations.csv" ] /\
    on_disk fs "data/synthea" file = true /\
    rows_on_disk fs "data/synthea" file = 0.
Proof.
  assert (Hkey : forall file,
            file ∈ synthea_files ->
            (synthea (load_real_data fs) !! table_name file = Some 0 <->
             on_disk fs "data/synthea" file = true /\
             rows_on_disk fs "data/synthea" file = 0)).
  { intros file Hin. cbn [load_real_data synthea].
    rewrite (load_counts_lookup _ _ _ _ table_names_synthea Hin).
    unfold on_disk, rows_on_disk.
    destruct (csv fs _) as [ | | n]; cbn.
    - split; [ discriminate | intros [[=] _] ].
    - split; auto.
    - split; [ intros [= H0]; split; [ reflexivity | exact H0 ]
             | intros [_ ->]; reflexivity ]. }
  assert (Hfiles : forall file,
            file ∈ [ "conditions.csv"; "medications.csv";
                     "procedures.csv"; "observations.csv" ] ->
            file ∈ synthea_files).
  { intros file Hin.
    repeat (apply elem_of_cons in Hin as [-> | Hin];
            [ apply (bool_decide_unpack _); reflexivity | ]).
    inversion Hin. }
  rewrite render_tabs_fails_iff_aux. split.
  - intros (t & Hin & H0). unfold mapping_tabs in Hin.
    repeat (apply elem_of_cons in Hin as [-> | Hin];
            [ cbn [tab_key] in H0 | ]); [ .. | inversion Hin ].
    + exists "conditions.csv". split; [ in_list | ].
      apply Hkey; [ apply Hfiles; in_list | exact H0 ].
    + exists "medications.csv". split; [ in_list | ].
      apply Hkey; [ apply Hfiles; in_list | exact H0 ].
    + exists "procedures.csv". split; [ in_list | ].
      apply Hkey; [ apply Hfiles; in_list | exact H0 ].
    + exists "observations.csv". split; [ in_list | ].
      apply Hkey; [ apply Hfiles; in_list | exact H0 ].
  - intros (file & Hin & Hdisk).
    apply Hkey in Hdisk; [ | apply Hfiles; exact Hin ].
    repeat (apply elem_of_cons in Hin as [-> | Hin]; [ | ]);
      [ .. | inversion Hin ].
    + exists (mkTab "conditions" 54 0.467 condition_codes condition_row).
      split; [ unfold mapping_tabs; in_list | exact Hdisk ].
    + exists (mkTab "medications" 42 0.88 drug_codes drug_row).
      split; [ unfold mapping_tabs; in_list | exact Hdisk ].
    + exists (mkTab "procedures" 38 0.92 procedure_codes procedure_row).
      split; [ unfold mapping_tabs; in_list | exact Hdisk ].
    + exists (mkTab "observations" 28 0.85 measurement_codes measurement_row).
      split; [ unfold mapping_tabs; in_list | exact Hdisk ].
Qed.

(** an empty conditions file ends the page; no file at all does not *)
Example render_tabs_empty_conditions :
  render_tabs (load_real_data empty_conditions_disk) mapping_tabs =
  Fails ZeroDivisionError /\
  exists shown_tabs,
    render_tabs (load_real_data no_files) mapping_tabs = Shown shown_tabs /\
    map (fun tab => (length tab.1, tab.2.1)) shown_tabs =
    [ (10%nat, (29, 54)); (5%nat, (6, 42));
      (3%nat, (4, 38)); (4%nat, (5, 28)) ].
Proof. split; [ reflexivity | eexists; split; reflexivity ]. Qed.

Lemma mapping_tabs_rates t :
  t ∈ mapping_tabs -> (0 <= tab_rate t <= 1)%Q.
Proof.
  intros Hin. unfold mapping_tabs in Hin.
  repeat (apply elem_of_cons in Hin as [-> | Hin];
          [ split; discriminate | ]).
  inversion Hin.
Qed.

Lemma slice_to_length {A} (l : list A) n :
  0 <= n -> length (slice_to l n) = Nat.min (Z.to_nat n) (length l).
Proof.
  intros Hn. unfold slice_to.
  destruct (n <? 0)%Z eqn:Hneg; [ apply Z.ltb_lt in Hneg; lia | ].
  apply length_take.
Qed.

(** X21: for a count that is not negative, each table of the mapping
    analysis takes between 0 and the whole count as unmapped, and lists
    as many rows as that number, but never more than the codes it has
    (10, 5, 3 and 4): beyond that the message announces more unmapped
    records than the table shows. *)
Theorem tab_rows_length (d : Data) (t : tab) :
  t ∈ mapping_tabs ->
  0 <= tab_total d t ->
  0 <= tab_unmapped d t <= tab_total d t /\
  length (tab_rows d t) =
  Nat.min (Z.to_nat (tab_unmapped d t)) (length (tab_codes t)).
Proof.
  intros Hin Htotal.
  destruct (mapping_tabs_rates t Hin) as [Hlo Hhi].
  assert (Hbounds : 0 <= tab_mapped d t <= tab_total d t).
  { unfold tab_mapped.
    set (total := inject_Z (tab_total d t)).
    assert (Ht : (0 <= total)%Q).
    { unfold total. change 0%Q with (inject_Z 0). rewrite <- Zle_Qle.
      exact Htotal. }
    assert (Hx0 : (0 <= total * tab_rate t)%Q)
      by (apply Qmult_le_0_compat; assumption).
    assert (Hx1 : (total * tab_rate t <= total)%Q).
    { rewrite (Qmult_comm total (tab_rate t)).
      apply Qle_trans with (1 * total)%Q;
        [ apply Qmult_le_compat_r; assumption
        | rewrite Qmult_1_l; apply Qle_refl ]. }
    rewrite (py_int_floor _ Hx0). split.
    - change 0 with (Qfloor 0). apply Qfloor_resp_le. exact Hx0.
    - rewrite <- (Qfloor_Z (tab_total d t)). apply Qfloor_resp_le.
      exact Hx1. }
  assert (Hun : 0 <= tab_unmapped d t <= tab_total d t)
    by (unfold tab_unmapped; lia).
  split; [ exact Hun | ].
  unfold tab_rows, enumerate_1.
  rewrite length_map, length_imap. apply slice_to_length. lia.
Qed.

Lemma tab_rows_length_witness :
  tab_unmapped empty_snapshot conditions_tab = 29 /\
  length (tab_rows empty_snapshot conditions_tab) = 10%nat.
Proof.
  destruct (tab_rows_length empty_snapshot conditions_tab) as [_ Hlen].
  - unfold mapping_tabs. in_list.
  - discriminate.
  - split; [ reflexivity | rewrite Hlen; reflexivity ].
Defined.
